(** * scooby.versions: the package registry and its version resolver

    A shallow embedding of [src/scooby/versions.py] (class [Versions]) and
    proofs about the registry ([add_packages], [__init__]), the resolver
    ([get_version]) and the two renderers.

    Python objects are a small inductive type, the interpreter state that
    the class reads and writes ([self], [sys.modules], the records sent to
    [logging.warning]) is threaded through a state-and-exception monad, and
    the insertion-ordered [dict] behind [self._packages] is an association
    list updated in place.  What the class takes from its host (the table
    of version attributes, the attributes that objects have from their
    classes, the finders and loaders of the import system, [textwrap], the
    clock) is a variable of the section that holds the class. *)

From stdpp Require Import gmap strings list pretty.

Set Warnings "-register-all".
Set Default Proof Using "Type".

(** ** Python values *)

(** The objects the class can meet: the elements of a package list
    (strings, modules, [None], anything else), the values of module
    attributes, and the instances of [mock.Mock].  A module carries its
    [__name__] and the rest of the attributes that [getattr] finds on it.
    An instance of [Mock] carries the path of attribute names that leads to
    it from the [Mock()] it descends from: the empty path for that one
    itself.  A float carries the text that [str] and [format] print for it.
    [PyObject] is an instance of any other class, one that defines no
    [__len__], no [__iter__] and no [__format__] of its own (a function or
    a class, say); it carries the name of its class as [repr] qualifies it
    and the attributes that [getattr] finds on it. *)
Inductive object : Type :=
  | PyNone
  | PyInt (z : Z)
  | PyStr (s : string)
  | PyList (items : list object)
  | PyTuple (items : list object)
  | PyModule (__name__ : string) (__dict__ : gmap string object)
  | PyMock (path : list string)
  | PyFloat (text : string)
  | PyObject (cls : string) (attrs : gmap string object).

Inductive exn : Type :=
  | TypeError (msg : string)
  | KeyError (key : string)
  | AttributeError (attr : string)
  | ImportError (name : string)
  | ModuleNotFoundError (name : string)
  | ValueError (msg : string).

Inductive outcome (A : Type) : Type :=
  | Return (a : A)
  | Raise (e : exn).
Arguments Return {A} a.
Arguments Raise {A} e.

(** [mock.Mock()]. *)
Definition mock_Mock : object := PyMock [].

(** [isinstance(o, str)], [isinstance(o, ModuleType)],
    [isinstance(o, mock.Mock)]. *)
Definition isinstance_str (o : object) : bool :=
  match o with PyStr _ => true | _ => false end.

Definition isinstance_ModuleType (o : object) : bool :=
  match o with PyModule _ _ => true | _ => false end.

Definition isinstance_Mock (o : object) : bool :=
  match o with PyMock _ => true | _ => false end.

(** The dot of qualified names. *)
Definition dot : Ascii.ascii := Ascii.ascii_of_nat 46.

(** The part of a qualified name behind its last dot. *)
Fixpoint after_last_dot (seen name : string) : string :=
  match name with
  | EmptyString => seen
  | String c rest =>
      if Ascii.eqb c dot
      then after_last_dot "" rest
      else after_last_dot (seen +:+ String c EmptyString) rest
  end.

(** [type(o).__name__], as [len] and [format] name the type they
    refuse. *)
Definition type_name (o : object) : string :=
  match o with
  | PyNone => "NoneType"
  | PyInt _ => "int"
  | PyStr _ => "str"
  | PyList _ => "list"
  | PyTuple _ => "tuple"
  | PyModule _ _ => "module"
  | PyMock _ => "Mock"
  | PyFloat _ => "float"
  | PyObject cls _ => after_last_dot "" cls
  end.

(** [type(o)] as [str.format] prints it. *)
Definition type_repr (o : object) : string :=
  match o with
  | PyNone => "<class 'NoneType'>"
  | PyInt _ => "<class 'int'>"
  | PyStr _ => "<class 'str'>"
  | PyList _ => "<class 'list'>"
  | PyTuple _ => "<class 'tuple'>"
  | PyModule _ _ => "<class 'module'>"
  | PyMock _ => "<class 'mock.mock.Mock'>"
  | PyFloat _ => "<class 'float'>"
  | PyObject cls _ => "<class '" +:+ cls +:+ "'>"
  end.

(** The line feed, which a Rocq string literal cannot spell. *)
Definition LF : string := String (Ascii.ascii_of_nat 10) EmptyString.

(** [mock]'s test for dunder names: ['__%s__' % name[2:-2] == name]. *)
Definition ends_with (suffix s : string) : bool :=
  String.prefix (String.rev suffix) (String.rev s).

Definition _is_magic (name : string) : bool :=
  (4 <=? String.length name)%nat && String.prefix "__" name && ends_with "__" name.

(** ** Characters *)

(** A Rocq string holds a Python text as its UTF-8 bytes.  Every byte
    starts a character but a continuation byte, which is one of
    [10xxxxxx]. *)
Definition starts_character (c : Ascii.ascii) : bool :=
  negb ((128 <=? Ascii.nat_of_ascii c)%nat && (Ascii.nat_of_ascii c <? 192)%nat).

(** [len(t)]: the number of characters of [t]. *)
Fixpoint characters (t : string) : nat :=
  match t with
  | EmptyString => 0
  | String c rest => (if starts_character c then 1 else 0) + characters rest
  end.

(** [list(t)]: the characters of [t], each a string of its own. *)
Fixpoint list_of_str (t : string) : list string :=
  match t with
  | EmptyString => []
  | String c rest =>
      let following := list_of_str rest in
      if match rest with
         | String c' _ => starts_character c'
         | EmptyString => true
         end
      then String c EmptyString :: following
      else match following with
           | next :: others => String c next :: others
           | [] => [String c EmptyString]
           end
  end.

(** ** The insertion-ordered dictionary behind [self._packages] *)

Definition pydict : Type := list (string * object).

Fixpoint dict_getitem (d : pydict) (k : string) : option object :=
  match d with
  | [] => None
  | (k', v) :: d' => if decide (k = k') then Some v else dict_getitem d' k
  end.

(** [d[k] = v]: an existing key keeps its slot and takes the new value, a
    new key goes to the end. *)
Fixpoint dict_setitem (d : pydict) (k : string) (v : object) : pydict :=
  match d with
  | [] => [(k, v)]
  | (k', v') :: d' =>
      if decide (k = k') then (k', v) :: d' else (k', v') :: dict_setitem d' k v
  end.

Definition dict_keys (d : pydict) : list string := d.*1.

(** ** Interpreter state *)

Record Versions : Type := mkVersions {
  ncol : Z;
  text_width : Z;
  _packages : pydict
}.

(** [self], the process-wide module cache [sys.modules], and the records
    handed to [logging.warning], oldest first. *)
Record state : Type := mkState {
  self : Versions;
  sys_modules : gmap string object;
  warnings : list string
}.

Definition set_packages (p : pydict) (s : state) : state :=
  mkState (mkVersions (ncol (self s)) (text_width (self s)) p)
          (sys_modules s) (warnings s).

Definition set_sys_modules (m : gmap string object) (s : state) : state :=
  mkState (self s) m (warnings s).

Definition add_warning (msg : string) (s : state) : state :=
  mkState (self s) (sys_modules s) (warnings s ++ [msg]).

(** [names()]: the registered names in iteration order. *)
Definition names (s : state) : list string := dict_keys (_packages (self s)).

(** ** State and exception monad *)

Definition M (A : Type) : Type := state → outcome A * state.

Definition ret {A} (a : A) : M A := λ s, (Return a, s).

Definition bind {A B} (m : M A) (k : A → M B) : M B :=
  λ s, match m s with
       | (Return a, s') => k a s'
       | (Raise e, s') => (Raise e, s')
       end.

Definition raise {A} (e : exn) : M A := λ s, (Raise e, s).

(** [try: body / except <catches>: handler]; what the body did to the
    state before raising stays done. *)
Definition try_except {A} (body : M A) (catches : exn → bool) (handler : M A) : M A :=
  λ s, match body s with
       | (Return a, s') => (Return a, s')
       | (Raise e, s') => if catches e then handler s' else (Raise e, s')
       end.

Notation "x <- m ;; k" := (bind m (λ x, k))
  (at level 100, m at next level, right associativity,
   format "'[v' x  <-  m  ;;  '/' k ']'").
Notation "m ;;; k" := (bind m (λ _, k))
  (at level 100, right associativity, format "'[v' m  ;;;  '/' k ']'").

Definition is_KeyError (e : exn) : bool :=
  match e with KeyError _ => true | _ => false end.

Definition is_AttributeError (e : exn) : bool :=
  match e with AttributeError _ => true | _ => false end.

(** [except (ImportError, ModuleNotFoundError)]. *)
Definition is_ImportError (e : exn) : bool :=
  match e with ImportError _ | ModuleNotFoundError _ => true | _ => false end.

Definition is_TypeError (e : exn) : bool :=
  match e with TypeError _ => true | _ => false end.

Definition logging_warning (msg : string) : M unit :=
  λ s, (Return tt, add_warning msg s).

(** ** Text formatting *)

Fixpoint repeat_string (n : nat) (t : string) : string :=
  match n with
  | 0 => ""
  | S n' => t +:+ repeat_string n' t
  end.

(** [n * t] for an integer [n]: the empty string when [n] is not
    positive. *)
Definition times (n : Z) (t : string) : string := repeat_string (Z.to_nat n) t.

(** [t] behind as many blanks as it lacks to [width] characters. *)
Definition rjust (width : nat) (t : string) : string :=
  repeat_string (width - characters t) " " +:+ t.

(** ['{:>15}'.format(x)]: strings, integers and floats take an alignment;
    the objects whose class has no [__format__] of its own come to
    [object.__format__], which refuses a format specification. *)
Definition format_right (x : object) : outcome string :=
  match x with
  | PyStr t => Return (rjust 15 t)
  | PyInt z => Return (rjust 15 (pretty z))
  | PyFloat t => Return (rjust 15 t)
  | _ => Raise (TypeError ("unsupported format string passed to "
                           +:+ type_name x +:+ ".__format__"))
  end.

(** [if info:] for the module-level [mklinfo], which is [False] or a
    string. *)
Definition truthy (info : option string) : bool :=
  match info with
  | Some "" | None => false
  | Some _ => true
  end.

(** ** The renderers' exceptions and monad *)

(** The renderers can end in two more ways than the registry: the
    [ZeroDivisionError] of [i % ncol] and the [NotImplementedError] of
    [multiprocessing.cpu_count()]. *)
Inductive error : Type :=
  | Python (e : exn)
  | ZeroDivisionError
  | NotImplementedError.

Inductive ending (A : Type) : Type :=
  | Returns (a : A)
  | Raises (e : error).
Arguments Returns {A} a.
Arguments Raises {A} e.

Definition R (A : Type) : Type := state → ending A * state.

Definition rret {A} (a : A) : R A := λ s, (Returns a, s).

Definition rbind {A B} (m : R A) (k : A → R B) : R B :=
  λ s, match m s with
       | (Returns a, s') => k a s'
       | (Raises e, s') => (Raises e, s')
       end.

Definition rraise {A} (e : error) : R A := λ s, (Raises e, s).

Definition of_outcome {A} (o : outcome A) : ending A :=
  match o with
  | Return a => Returns a
  | Raise e => Raises (Python e)
  end.

(** A method of the registry called from a renderer. *)
Definition call {A} (m : M A) : R A :=
  λ s, let (o, s') := m s in (of_outcome o, s').

(** A computation that does not touch the state. *)
Definition pure {A} (e : ending A) : R A := λ s, (e, s).

Notation "x <~ m ;; k" := (rbind m (λ x, k))
  (at level 100, m at next level, right associativity,
   format "'[v' x  <~  m  ;;  '/' k ']'").

Definition get_text_width : R Z := λ s, (Returns (text_width (self s)), s).

Definition get_ncol : R Z := λ s, (Returns (ncol (self s)), s).

Definition packages_keys : R (list string) := λ s, (Returns (names s), s).

(** ** The pieces of the table *)

Definition border : string := "border: 2px solid #fff;'".

(** The local function [colspan] of [_repr_html_]. *)
Definition colspan (html txt : string) (ncol nrow : Z) : string :=
  let html := html +:+ ("  <tr>" +:+ LF) in
  let html := html +:+ "     <td style='text-align: center; " in
  let html :=
    if (nrow =? 0)%Z then html +:+ "font-weight: bold; font-size: 1.2em; "
    else if (nrow `mod` 2 =? 0)%Z then html +:+ "background-color: #ddd;"
    else html in
  let html := html +:+ (border +:+ " colspan='") in
  let html := html +:+ (pretty (2 * ncol)%Z +:+ ("'>" +:+ txt +:+ "</td>" +:+ LF)) in
  html +:+ ("  </tr>" +:+ LF).

(** The two empty cells that one turn of the filling loop appends. *)
Definition empty_cell : string := "    <td style= " +:+ border +:+ "></td>" +:+ LF.

(** The loop [while i % self.ncol != 0], for a column count that is not
    zero, run for at most [rounds] turns. *)
Fixpoint fill_up (rounds : nat) (ncol : Z) (html : string) (i : Z) : string * Z :=
  match rounds with
  | 0 => (html, i)
  | S rounds' =>
      if (i `mod` ncol =? 0)%Z then (html, i)
      else fill_up rounds' ncol ((html +:+ empty_cell) +:+ empty_cell) (i + 1)%Z
  end.


(** ** A sample host, for the examples that close the file *)

(** A component with the conventional attribute, one that has both the
    overriding and the conventional attribute, and one with neither. *)
Definition numericlib : object :=
  PyModule "numericlib" {[ "__version__" := PyStr "2.1.0" ]}.

Definition vtk : object :=
  PyModule "vtk" (<[ "VTK_VERSION" := PyStr "8.1.2" ]> {[ "__version__" := PyStr "8.1" ]}).

Definition bare : object := PyModule "bare" ∅.

(** An override table with one entry. *)
Definition knowledge : gmap string string := {[ "vtk" := "VTK_VERSION" ]}.

(** What the objects of the sample host have from their classes.  An
    instance of [Mock] answers through [Mock.__getattr__]: with
    [AttributeError] for a dunder name and for a name that starts like an
    assertion, with its child of that name otherwise; [call_count], which
    [Mock] sets itself, is 0.  The built-in scalars and containers have
    none of the attributes that the examples ask for. *)
Definition builtin_getattr (o : object) (attr : string) : option object :=
  match o with
  | PyMock path =>
      if _is_magic attr || String.prefix "assert" attr || String.prefix "assret" attr
      then None
      else if decide (attr = "call_count") then Some (PyInt 0)
      else Some (PyMock (path ++ [attr]))
  | _ => None
  end.

(** What is installed on the sample host: under its name, the modules that
    the body of a module imports, and the attributes the module ends up
    with. *)
Record distribution : Type := mkDistribution {
  imports : list string;
  namespace : gmap string object
}.

(** The package that a dotted name lies in. *)
Fixpoint parent (seen name : string) (found : option string) : option string :=
  match name with
  | EmptyString => found
  | String c rest =>
      if Ascii.eqb c dot
      then parent (seen +:+ ".") rest (Some seen)
      else parent (seen +:+ String c EmptyString) rest found
  end.

(** The import system of the sample host, [depth] imports deep: a name
    that [sys.modules] holds is answered from there; otherwise the parent
    package is imported first and has to be a module, then the body's
    imports are run in turn, then the module is cached.  The answer is the
    name that could not be found, if any, and [sys.modules] as the import
    leaves it. *)
Fixpoint site_import (depth : nat) (site : gmap string distribution) (name : string)
    (modules : gmap string object) : option string * gmap string object :=
  match modules !! name with
  | Some PyNone => (Some name, modules)
  | Some _ => (None, modules)
  | None =>
      match depth with
      | 0 => (Some name, modules)
      | S depth =>
          let import_all :=
            fix import_all (todo : list string) (modules : gmap string object) :=
              match todo with
              | [] => (None, modules)
              | n :: rest =>
                  match site_import depth site n modules with
                  | (None, modules) => import_all rest modules
                  | failed => failed
                  end
              end in
          let package := parent "" name None in
          match import_all (option_list package) modules with
          | (Some missing, modules) => (Some missing, modules)
          | (None, modules) =>
              if match package with
                 | Some p => negb (from_option isinstance_ModuleType false (modules !! p))
                 | None => false
                 end
              then (Some name, modules)
              else
                match site !! name with
                | None => (Some name, modules)
                | Some dist =>
                    match import_all (imports dist) modules with
                    | (Some missing, modules) => (Some missing, modules)
                    | (None, modules) =>
                        (None, <[name := PyModule name (namespace dist)]> modules)
                    end
                end
          end
      end
  end.

(** The finders and loaders of the sample host. *)
Definition site_loader (site : gmap string distribution) (name : string)
    (modules : gmap string object) : (gmap string object + string) * gmap string object :=
  let (failed, cached) := site_import 8 site name modules in
  (match failed, site !! name with
   | None, Some dist => inl (namespace dist)
   | None, None => inr name
   | Some missing, _ => inr missing
   end, cached).

(** On the sample host [numericlib] is installed with its subpackage
    [numericlib.linalg], and so is [plotlib], whose body imports
    [numericlib] and a [backend] that is not installed. *)
Definition installed : gmap string distribution :=
  <[ "numericlib" := mkDistribution [] {[ "__version__" := PyStr "2.1.0" ]} ]>
  (<[ "numericlib.linalg" := mkDistribution [] ∅ ]>
   {[ "plotlib" := mkDistribution ["numericlib"; "backend"]
                     {[ "__version__" := PyStr "3.0" ]} ]}).

Definition sample_loader := site_loader installed.

Definition plotlib : object := PyModule "plotlib" {[ "__version__" := PyStr "3.0" ]}.

(** Another module that calls itself [plotlib]. *)
Definition plotlib_fork : object := PyModule "plotlib" {[ "__version__" := PyStr "3.1" ]}.

(** An empty registry in a process that has loaded nothing, and the same
    after [numericlib] was added by name. *)
Definition fresh : state := mkState (mkVersions 4 54 []) ∅ [].

Definition loaded : state :=
  mkState (mkVersions 4 54 [("numericlib", numericlib)])
          {[ "numericlib" := numericlib ]} [].

Definition narrow : state := mkState (mkVersions 4 30 []) ∅ [].

Definition runtime : string :=
  "3.7.3 (default, Mar 27 2019, 22:11:17) [GCC 7.3.0]".

(** A plain greedy word wrap on blanks, standing in for [textwrap.wrap];
    like it, it refuses a width that is not positive. *)
Fixpoint fill (width : nat) (line : string) (words : list string) : list string :=
  match words with
  | [] => [line]
  | w :: rest =>
      if (String.length line + 1 + String.length w <=? width)%nat
      then fill width (line +:+ " " +:+ w) rest
      else line :: fill width w rest
  end.

Definition greedy_wrap (text : string) (width : Z) : outcome (list string) :=
  if (width <=? 0)%Z then Raise (ValueError "invalid width (must be > 0)")
  else match String.words text with
       | [] => Return []
       | w :: rest => Return (fill (Z.to_nat width) w rest)
       end.

(** A component whose version is a tuple, one more with a conventional
    version, one whose version is a float, one whose version has a
    character of two bytes in it, and a function, which has a [__name__]
    and is no module. *)
Definition tupled : object :=
  PyModule "tupled" {[ "__version__" := PyTuple [PyInt 1; PyInt 2; PyInt 0] ]}.

Definition alpha : object := PyModule "alpha" {[ "__version__" := PyStr "0.9" ]}.

Definition floated : object := PyModule "floated" {[ "__version__" := PyFloat "1.0" ]}.

Definition greek : object := PyModule "greek" {[ "__version__" := PyStr "1.0β" ]}.

Definition helper : object := PyObject "function" {[ "__name__" := PyStr "helper" ]}.

(** Registries as [__init__] could have left them: one with five
    components in four columns, one that holds [tupled], one with no
    columns at all. *)
Definition five : state :=
  mkState
    (mkVersions 4 54
       [("numericlib", numericlib); ("vtk", vtk); ("bare", bare);
        ("alpha", alpha); ("tupled1", PyModule "tupled1" {[ "__version__" := PyTuple [PyInt 7] ]})])
    ∅ [].

Definition with_tuple : state :=
  mkState (mkVersions 4 54 [("numericlib", numericlib); ("tupled", tupled)]) ∅ [].

Definition no_columns : state :=
  mkState (mkVersions 0 54 [("numericlib", numericlib)]) ∅ [].

Definition four : state :=
  mkState
    (mkVersions 3 30
       [("numericlib", numericlib); ("floated", floated); ("bare", bare);
        ("greek", greek)])
    ∅ [].

(** A clock that shows one moment in the two formats the renderers ask
    for, and a text for the objects whose [str] the model does not keep. *)
Definition clock (format : string) : string :=
  if String.prefix "  " format
  then "  Sat Jun 01 12:00:00 2019 UTC" +:+ LF +:+ LF
  else "Sat Jun 01 12:00:00 2019 UTC".

Definition some_text (x : object) : string := "<" +:+ type_name x +:+ ">".

(** ** The class, over the host it runs on *)

Section Host.

(** [scooby.knowledge.VERSION_ATTRIBUTES], the table of components whose
    version sits under another attribute than [__version__]; it is
    declared outside this file. *)
Variable VERSION_ATTRIBUTES : gmap string string.

(** The attributes that an object has from its class, [None] standing for
    [AttributeError]: those of the built-in scalars and containers, and
    what an instance of [Mock] answers, which the [mock] library
    settles. *)
Variable class_getattr : object → string → option object.

(** The finders and loaders behind [importlib], for a name that
    [sys.modules] does not hold: the attributes of the module they create,
    or the name of the module that none of them found; and the entries
    that the import left in [sys.modules] on its way, those of the parent
    packages and of the modules that a body imports.  A module whose body
    raises while it is loaded is outside the model. *)
Variable find_and_load :
  string → gmap string object → (gmap string object + string) * gmap string object.

(** [sys.version] and [textwrap.wrap(text, width)]. *)
Variable sys_version_string : string.
Variable textwrap_wrap : string → Z → outcome (list string).

(** Attribute lookup, [None] standing for [AttributeError].  A module
    answers with its name and from its dictionary, an instance of another
    class with what it carries. *)
Definition lookup_attr (o : object) (attr : string) : option object :=
  match o with
  | PyModule n d => if decide (attr = "__name__") then Some (PyStr n) else d !! attr
  | PyObject _ attrs => attrs !! attr
  | _ => class_getattr o attr
  end.

Definition getattr (o : object) (attr : string) : M object :=
  match lookup_attr o attr with
  | Some v => ret v
  | None => raise (AttributeError attr)
  end.

Definition relative_import (name : string) : string :=
  "the 'package' argument is required to perform a relative import for '"
  +:+ name +:+ "'".

(** [importlib.import_module(name)], as what it returns and what it leaves
    in [sys.modules].  A name that starts with a dot is relative and needs
    a package, the empty name is refused, and both before [sys.modules] is
    looked at.  A name that [sys.modules] holds is answered from there,
    whatever sits there, except that [None] there halts the import.
    Otherwise the finders and loaders run: what they cache on their way is
    added to [sys.modules], where nothing that is there is replaced, and
    the module they create is cached under the name. *)
Definition importlib_import_module (name : string) (modules : gmap string object)
    : outcome object * gmap string object :=
  if String.prefix "." name then (Raise (TypeError (relative_import name)), modules)
  else if decide (name = "") then (Raise (ValueError "Empty module name"), modules)
  else match modules !! name with
       | Some PyNone => (Raise (ModuleNotFoundError name), modules)
       | Some m => (Return m, modules)
       | None =>
           let (found, cached) := find_and_load name modules in
           let modules := modules ∪ cached in
           match found with
           | inl d =>
               let m := PyModule name d in
               (Return m, <[name := m]> modules)
           | inr missing => (Raise (ModuleNotFoundError missing), modules)
           end
       end.

Definition import_module (name : string) : M object :=
  λ s, let (r, modules) := importlib_import_module name (sys_modules s) in
       (r, set_sys_modules modules s).

Definition sys_modules_setitem (name : string) (module : object) : M unit :=
  λ s, (Return tt, set_sys_modules (<[name := module]> (sys_modules s)) s).

Definition could_not_import (name : string) : string :=
  "Could not import module `" +:+ name +:+ "`. This will be mocked.".

Definition _safe_import_by_name (name : string) : M object :=
  try_except (import_module name) is_ImportError
    (logging_warning (could_not_import name) ;;;
     let module := mock_Mock in
     sys_modules_setitem name module ;;;
     ret module).

Definition packages_setitem (name : string) (module : object) : M unit :=
  λ s, (Return tt, set_packages (dict_setitem (_packages (self s)) name module) s).

Definition packages_getitem (name : string) : M object :=
  λ s, match dict_getitem (_packages (self s)) name with
       | Some m => (Return m, s)
       | None => (Raise (KeyError name), s)
       end.

(** [_add_package(module, name)].  The key is the name that was given, if
    it is a string, and [module.__name__] otherwise, which for a module is
    the name it carries.  An object that is no module is refused after its
    [__name__] was read, if it had to be. *)
Definition _add_package (module name : object) : M unit :=
  match name, module with
  | PyStr key, _ | _, PyModule key _ =>
      if negb (isinstance_ModuleType module)
      then raise (TypeError "Module passed is not a module.")
      else packages_setitem key module
  | _, _ =>
      getattr module "__name__" ;;;
      raise (TypeError "Module passed is not a module.")
  end.

Definition _add_package_by_name (name : string) : M bool :=
  module <- _safe_import_by_name name ;;
  if negb (isinstance_Mock module)
  then _add_package module (PyStr name) ;;; ret true
  else ret false.

Definition cannot_add (pckg : object) : string :=
  "Cannot add package from type (" +:+ type_repr pckg +:+ ")".

(** One turn of the [for] loop of [add_packages]. *)
Definition add_element (pckg : object) : M unit :=
  match pckg with
  | PyStr name => _add_package_by_name name ;;; ret tt
  | PyModule _ _ => _add_package pckg PyNone
  | PyNone => ret tt
  | _ => raise (TypeError (cannot_add pckg))
  end.

Fixpoint for_each (packages : list object) : M unit :=
  match packages with
  | [] => ret tt
  | pckg :: rest => add_element pckg ;;; for_each rest
  end.

Definition add_packages (packages : object) : M unit :=
  match packages with
  | PyList items | PyTuple items => for_each items
  | _ => raise (TypeError "You must pass a list of packages or package names.")
  end.

Definition cannot_fetch (pckg : object) : string :=
  "Cannot fetch version from type (" +:+ type_repr pckg +:+ ")".

Definition version_unknown (name : string) : string :=
  "Varsion attribute for `" +:+ name +:+ "` is unknown.".

Definition knowledge_getitem (name : string) : M string :=
  match VERSION_ATTRIBUTES !! name with
  | Some attr => ret attr
  | None => raise (KeyError name)
  end.

(** The first half of [get_version]: the name and the object the version
    is read from. *)
Definition fetch_module (pckg : object) : M (string * object) :=
  match pckg with
  | PyStr name =>
      module <- try_except (packages_getitem name) is_KeyError
                  (_safe_import_by_name name) ;;
      ret (name, module)
  | PyModule n _ => ret (n, pckg)
  | _ => raise (TypeError (cannot_fetch pckg))
  end.

(** The second half: the override, then [__version__], then the
    sentinel. *)
Definition read_version (name : string) (module : object) : M object :=
  try_except (attr <- knowledge_getitem name ;; getattr module attr)
    (λ e, is_KeyError e || is_AttributeError e)
    (try_except (getattr module "__version__") is_AttributeError
       (logging_warning (version_unknown name) ;;;
        ret (PyStr "unknown"))).

Definition get_version (pckg : object) : M object :=
  nm <- fetch_module pckg ;;
  read_version nm.1 nm.2.

(** The property [sys_version]. *)
Definition sys_version : M string :=
  λ s, match textwrap_wrap sys_version_string (text_width (self s) - 4) with
       | Return lines =>
           (Return (foldl (λ text txt, text +:+ "  " +:+ txt +:+ LF) LF lines), s)
       | Raise e => (Raise e, s)
       end.

(** [len(x)] and [list(x)] as the lambda [safety] of [__init__] uses
    them. *)
Definition list_of (x : object) : option (list object) :=
  match x with
  | PyList l | PyTuple l => Some l
  | PyStr t => Some (PyStr <$> list_of_str t)
  | _ => None
  end.

Definition safety (x : object) : M (list object) :=
  match x with
  | PyNone => ret []
  | _ =>
      match list_of x with
      | Some l => ret (if (length l <? 1)%nat then [] else l)
      | None => raise (TypeError ("object of type '" +:+ type_name x +:+ "' has no len()"))
      end
  end.

Definition init_self (ncol text_width : Z) : M unit :=
  λ s, (Return tt, mkState (mkVersions ncol text_width []) (sys_modules s) (warnings s)).

Definition __init__ (core optional additional : object) (ncol text_width : Z) : M unit :=
  init_self ncol text_width ;;;
  core <- safety core ;;
  optional <- safety optional ;;
  additional <- safety additional ;;
  add_packages (PyList core) ;;;
  add_packages (PyList optional) ;;;
  add_packages (PyList additional).

(** ** The two renderers *)

(** [time.strftime(format)] at the time of the call, [platform.system()],
    [multiprocessing.cpu_count()] with [None] for its
    [NotImplementedError], and the module-level [mklinfo] with [None] for
    [False]. *)
Variable time_strftime : string → string.
Variable platform_system : string.
Variable multiprocessing_cpu_count : option Z.
Variable mklinfo : option string.

(** [str(x)] for the objects whose text hangs on what the model does not
    keep: containers, modules, stand-ins and the instances of other
    classes. *)
Variable str_opaque : object → string.

Definition platform : R string := rret platform_system.

Definition cpu_count : R Z :=
  match multiprocessing_cpu_count with
  | Some n => rret n
  | None => rraise NotImplementedError
  end.

Definition str (x : object) : string :=
  match x with
  | PyStr t => t
  | PyInt z => pretty z
  | PyFloat t => t
  | PyNone => "None"
  | _ => str_opaque x
  end.

(** [fmt % x] for a format with one [%s]: a tuple is taken for the
    argument list. *)
Definition percent_s (x : object) : outcome string :=
  match x with
  | PyTuple [] => Raise (TypeError "not enough arguments for format string")
  | PyTuple [y] => Return (str y)
  | PyTuple _ =>
      Raise (TypeError "not all arguments converted during string formatting")
  | _ => Return (str x)
  end.

(** The text that [for txt in textwrap.wrap(...)] appends. *)
Definition wrapped (text : string) (lines : list string) : string :=
  foldl (λ text txt, text +:+ "  " +:+ txt +:+ LF) text lines.

(** One turn of the loop over the packages in [__repr__]. *)
Definition repr_row (text name : string) : R string :=
  version <~ call (get_version (PyStr name)) ;;
  cell <~ pure (of_outcome (format_right version)) ;;
  rret (text +:+ (cell +:+ " : " +:+ name +:+ LF)).

Fixpoint repr_rows (keys : list string) (text : string) : R string :=
  match keys with
  | [] => rret text
  | name :: rest => text <~ repr_row text name ;; repr_rows rest text
  end.

Definition __repr__ : R string :=
  width <~ get_text_width ;;
  let text := LF +:+ times width "-" +:+ LF in
  let text := text +:+ time_strftime ("  %a %b %d %H:%M:%S %Y %Z" +:+ LF +:+ LF) in
  os <~ platform ;;
  let text := text +:+ (rjust 15 os +:+ " : OS" +:+ LF) in
  cpus <~ cpu_count ;;
  let text := text +:+ (rjust 15 (pretty cpus) +:+ " : CPU(s)" +:+ LF) in
  keys <~ packages_keys ;;
  text <~ repr_rows keys text ;;
  version <~ call sys_version ;;
  let text := text +:+ version in
  text <~ (if truthy mklinfo
           then width <~ get_text_width ;;
                lines <~ pure (of_outcome
                                 (textwrap_wrap (default "" mklinfo) (width - 4))) ;;
                rret (wrapped (text +:+ LF) lines)
           else rret text) ;;
  width <~ get_text_width ;;
  rret (text +:+ times width "-").

(** The local function [cols] of [_repr_html_]. *)
Definition cols (html : string) (version : object) (name : string) (ncol i : Z)
    : ending (string * Z) :=
  match
    (if (0 <? i)%Z
     then if (ncol =? 0)%Z then Raises ZeroDivisionError
          else Returns (i `mod` ncol =? 0)%Z
     else Returns false)
  with
  | Raises e => Raises e
  | Returns new_row =>
      let html :=
        if new_row then (html +:+ ("  </tr>" +:+ LF)) +:+ ("  <tr>" +:+ LF)
        else html in
      let html :=
        html +:+ "    <td style='text-align: right; background-color: #ccc;" in
      match percent_s version with
      | Raise e => Raises (Python e)
      | Return v =>
          let html := html +:+ (" " +:+ border +:+ (">" +:+ v +:+ "</td>" +:+ LF)) in
          let html := html +:+ "    <td style='text-align: left; " in
          let html := html +:+ (border +:+ (">" +:+ name +:+ "</td>" +:+ LF)) in
          Returns (html, (i + 1)%Z)
      end
  end.

(** The loop over the packages in [_repr_html_]. *)
Fixpoint html_cells (keys : list string) (html : string) (i : Z) : R (string * Z) :=
  match keys with
  | [] => rret (html, i)
  | name :: rest =>
      version <~ call (get_version (PyStr name)) ;;
      ncol <~ get_ncol ;;
      hi <~ pure (cols html version name ncol i) ;;
      html_cells rest hi.1 hi.2
  end.

Definition _repr_html_ : R string :=
  let html := "<table style='border: 3px solid #ddd;'>" +:+ LF in
  ncol <~ get_ncol ;;
  let html := colspan html (time_strftime "%a %b %d %H:%M:%S %Y %Z") ncol 0 in
  let html := html +:+ ("  <tr>" +:+ LF) in
  os <~ platform ;;
  ncol <~ get_ncol ;;
  hi <~ pure (cols html (PyStr os) "OS" ncol 0) ;;
  cpus <~ cpu_count ;;
  ncol <~ get_ncol ;;
  hi <~ pure (cols hi.1 (PyInt cpus) "CPU(s)" ncol hi.2) ;;
  keys <~ packages_keys ;;
  hi <~ html_cells keys hi.1 hi.2 ;;
  ncol <~ get_ncol ;;
  hi <~ (if (ncol =? 0)%Z then rraise ZeroDivisionError
         else rret (fill_up (Z.abs_nat ncol) ncol hi.1 hi.2)) ;;
  let html := hi.1 +:+ ("  </tr>" +:+ LF) in
  ncol <~ get_ncol ;;
  let html := colspan html sys_version_string ncol 1 in
  html <~ (if truthy mklinfo
           then ncol <~ get_ncol ;;
                rret (colspan html (default "" mklinfo) ncol 2)
           else rret html) ;;
  rret (html +:+ "</table>").


(** ** Vocabulary of the statements *)

(** The names that [importlib] takes: not relative, not empty. *)
Definition accepted (name : string) : bool :=
  negb (String.prefix "." name) && negb (bool_decide (name = "")).

(** The import of [name] fails the way [_safe_import_by_name] catches:
    [importlib.import_module] raises an [ImportError]. *)
Definition import_fails (s : state) (name : string) : bool :=
  match import_module name s with
  | (Raise e, _) => is_ImportError e
  | (Return _, _) => false
  end.

(** The state that a caught import leaves behind: what the import itself
    cached on its way, the warning logged, then the stand-in cached. *)
Definition mocked (name : string) (s : state) : state :=
  set_sys_modules
    (<[name := mock_Mock]> (importlib_import_module name (sys_modules s)).2)
    (add_warning (could_not_import name) s).

(** The argument types that [add_packages] iterates over. *)
Definition is_sequence (packages : object) : bool :=
  match packages with
  | PyList _ | PyTuple _ => true
  | _ => false
  end.

(** The elements that [add_packages] accepts. *)
Definition valid_element (pckg : object) : bool :=
  match pckg with
  | PyStr _ | PyModule _ _ | PyNone => true
  | _ => false
  end.

(** A constructor argument as the list it stands for, [None] for the
    empty default. *)
Definition supplied (x : object) : option (list object) :=
  match x with
  | PyNone => Some []
  | _ => list_of x
  end.

(** Importing [name] gives a real module: one already loaded, or one that
    can be loaded. *)
Definition imports_module (modules : gmap string object) (name : string) : bool :=
  match importlib_import_module name modules with
  | (Return m, _) => isinstance_ModuleType m
  | (Raise _, _) => false
  end.

(** A string names a component that resolves when importing it gives a
    real module. *)
Definition resolves (s : state) (name : string) : bool :=
  imports_module (sys_modules s) name.

(** The import of [name] is one that [add_packages] gets over: it gives a
    module or a stand-in, or it raises an [ImportError]. *)
Definition handled (modules : gmap string object) (name : string) : bool :=
  match importlib_import_module name modules with
  | (Return m, _) => isinstance_ModuleType m || isinstance_Mock m
  | (Raise e, _) => is_ImportError e
  end.

(** [sys.modules] after the import of [name] was tried: with what the
    import cached, and with the stand-in when an [ImportError] was
    caught. *)
Definition after_import (name : string) (modules : gmap string object)
    : gmap string object :=
  match importlib_import_module name modules with
  | (Return _, modules') => modules'
  | (Raise e, modules') =>
      if is_ImportError e then <[name := mock_Mock]> modules' else modules'
  end.

(** The names of the elements that resolve, in the order of the list, each
    string being imported in the [sys.modules] that the elements before it
    have left. *)
Fixpoint resolved_names (modules : gmap string object) (packages : list object)
    : list string :=
  match packages with
  | [] => []
  | PyStr name :: rest =>
      (if imports_module modules name then [name] else []) ++
      resolved_names (after_import name modules) rest
  | PyModule n _ :: rest => n :: resolved_names modules rest
  | _ :: rest => resolved_names modules rest
  end.

(** Each string of the list is handled when its turn comes. *)
Fixpoint all_handled (modules : gmap string object) (packages : list object) : Prop :=
  match packages with
  | [] => True
  | PyStr name :: rest =>
      handled modules name = true ∧ all_handled (after_import name modules) rest
  | _ :: rest => all_handled modules rest
  end.

(** Appends [x] unless it is there already. *)
Definition see (seen : list string) (x : string) : list string :=
  if decide (x ∈ seen) then seen else seen ++ [x].

(** The distinct elements of a list in the order of their first
    occurrence. *)
Definition first_occurrences (l : list string) : list string :=
  foldl see [] l.

(** The value of the attribute that the override table names for [name],
    when the table has the name and [module] has the attribute. *)
Definition overridden (name : string) (module : object) : option object :=
  VERSION_ATTRIBUTES !! name ≫= lookup_attr module.

(** The inputs [get_version] accepts. *)
Definition name_or_handle (pckg : object) : bool :=
  isinstance_str pckg || isinstance_ModuleType pckg.

(** [line] takes at most [width] columns. *)
Definition fits (width : Z) (line : string) : Prop :=
  (Z.of_nat (String.length line) ≤ width)%Z.

(** The wrapped lines as they are printed, each behind two blanks. *)
Definition printed (lines : list string) : list string :=
  (λ txt, "  " +:+ txt) <$> lines.

(** The printed lines one after the other, each ended by a line feed. *)
Fixpoint block (lines : list string) : string :=
  match lines with
  | [] => ""
  | txt :: rest => "  " +:+ txt +:+ LF +:+ block rest
  end.

(** No stand-in among the stored handles. *)
Definition no_stub (d : pydict) : Prop :=
  Forall (λ kv, isinstance_ModuleType kv.2 = true) d.

(** How often a name occurs among the registered names. *)
Definition entries (s : state) (name : string) : nat :=
  length (filter (λ k, k = name) (names s)).

(** [s'] continues [s]: the registered names of [s] come first and in the
    same order, the configuration is the same, distinct names stay
    distinct, what [sys.modules] held (other than [None]) is still there,
    and the log has only grown. *)
Definition continues (s s' : state) : Prop :=
  names s `prefix_of` names s' ∧
  ncol (self s') = ncol (self s) ∧
  text_width (self s') = text_width (self s) ∧
  (NoDup (names s) → NoDup (names s')) ∧
  (∀ name o, sys_modules s !! name = Some o → o ≠ PyNone →
             sys_modules s' !! name = Some o) ∧
  warnings s `prefix_of` warnings s'.

(** The key [_add_package] files a module under: the explicit name when
    it is a string, the module's own name otherwise. *)
Definition filed_under (module name : object) : option string :=
  match name with
  | PyStr k => Some k
  | _ => match module with PyModule n _ => Some n | _ => None end
  end.

(** The version a handle shows under a name, if it shows one: the
    overridden attribute, or else [__version__]. *)
Definition version_of (name : string) (module : object) : option object :=
  match overridden name module with
  | Some v => Some v
  | None => lookup_attr module "__version__"
  end.

(** What [get_version] answers for a registered name and its handle. *)
Definition shown (kv : string * object) : object :=
  default (PyStr "unknown") (version_of kv.1 kv.2).

(** The state after [get_version] was asked about one registered
    component, and after it was asked about each of a list in turn: one
    warning for each that shows no version. *)
Definition log_one (kv : string * object) (s : state) : state :=
  match version_of kv.1 kv.2 with
  | Some _ => s
  | None => add_warning (version_unknown kv.1) s
  end.

Definition logged (d : pydict) (s : state) : state := foldl (flip log_one) s d.

(** The texts of the versions of the registered components, each with its
    name, as far as [fmt] can print them: the first refusal ends it. *)
Fixpoint cells_of (fmt : object → outcome string) (d : pydict)
    : outcome (list (string * string)) :=
  match d with
  | [] => Return []
  | kv :: rest =>
      match fmt (shown kv) with
      | Raise e => Raise e
      | Return t =>
          match cells_of fmt rest with
          | Raise e => Raise e
          | Return cells => Return ((t, kv.1) :: cells)
          end
      end
  end.

(** The lines of the plain-text report, one for each cell. *)
Fixpoint rows_text (cells : list (string * string)) : string :=
  match cells with
  | [] => ""
  | (t, name) :: rest => (t +:+ " : " +:+ name +:+ LF) +:+ rows_text rest
  end.

(** One row of the table that spans all columns. *)
Definition colspan_row (txt : string) (ncol nrow : Z) : string :=
  colspan "" txt ncol nrow.

(** A pair of cells of the table, behind a row break when it opens a new
    row, and the pairs of a list numbered from [i]. *)
Definition cell_html (ncol i : Z) (v name : string) : string :=
  (if (0 <? i)%Z && (i `mod` ncol =? 0)%Z
   then ("  </tr>" +:+ LF) +:+ ("  <tr>" +:+ LF) else "") +:+
  "    <td style='text-align: right; background-color: #ccc;" +:+
  (" " +:+ border +:+ (">" +:+ v +:+ "</td>" +:+ LF)) +:+
  "    <td style='text-align: left; " +:+
  (border +:+ (">" +:+ name +:+ "</td>" +:+ LF)).

Fixpoint cells_html (ncol i : Z) (cells : list (string * string)) : string :=
  match cells with
  | [] => ""
  | (v, name) :: rest => cell_html ncol i v name +:+ cells_html ncol (i + 1) rest
  end.

(** The number of empty pairs that fill the last row after [i] pairs. *)
Definition padding (ncol i : Z) : nat := Z.to_nat ((- i) `mod` Z.abs ncol).

(** The block about [mklinfo] in the plain-text report, empty when there
    is none. *)
Definition mkl_text (width : Z) : outcome string :=
  if truthy mklinfo
  then match textwrap_wrap (default "" mklinfo) (width - 4) with
       | Return lines => Return (LF +:+ block lines)
       | Raise e => Raise e
       end
  else Return "".

(** The objects that ['{:>15}'] prints: strings, integers and floats. *)
Definition printable (x : object) : bool :=
  match x with
  | PyStr _ | PyInt _ | PyFloat _ => true
  | _ => false
  end.

(** [s'] differs from [s] by what was logged, if at all. *)
Definition only_logs (s s' : state) : Prop :=
  self s' = self s ∧ sys_modules s' = sys_modules s ∧
  warnings s `prefix_of` warnings s'.

(** ** The dictionary *)

Lemma dict_keys_setitem (d : pydict) k v :
  dict_keys (dict_setitem d k v) = see (dict_keys d) k.
Proof.
  unfold see, dict_keys. induction d as [|[k' v'] d IH]; csimpl.
  - done.
  - destruct (decide (k = k')) as [->|Hne]; csimpl.
    + clear IH. rewrite decide_True; [done | by left].
    + rewrite IH. destruct (decide (k ∈ d.*1)) as [Hin|Hnin].
      * rewrite decide_True; [done | by right].
      * rewrite decide_False; [done |]. by intros [?|?]%elem_of_cons.
Qed.

Lemma dict_getitem_setitem (d : pydict) k v :
  dict_getitem (dict_setitem d k v) k = Some v.
Proof.
  induction d as [|[k' v'] d IH]; simpl.
  - by rewrite decide_True.
  - destruct (decide (k = k')) as [->|Hne]; simpl.
    + by rewrite decide_True.
    + by rewrite decide_False.
Qed.

Lemma dict_getitem_setitem_ne (d : pydict) k k' v :
  k ≠ k' → dict_getitem (dict_setitem d k v) k' = dict_getitem d k'.
Proof.
  intros Hne. induction d as [|[k0 v0] d IH]; simpl.
  - by rewrite decide_False.
  - destruct (decide (k = k0)) as [->|Hne0]; simpl.
    + rewrite !decide_False; done.
    + by rewrite IH.
Qed.

Lemma dict_setitem_same (d : pydict) k v :
  dict_getitem d k = Some v → dict_setitem d k v = d.
Proof.
  induction d as [|[k' v'] d IH]; simpl; [done |].
  destruct (decide (k = k')) as [->|Hne].
  - by intros [= ->].
  - intros H. by rewrite IH.
Qed.

Lemma dict_getitem_None (d : pydict) k :
  dict_getitem d k = None ↔ k ∉ dict_keys d.
Proof.
  unfold dict_keys. induction d as [|[k' v'] d IH]; csimpl.
  - split; [intros _; apply not_elem_of_nil | done].
  - destruct (decide (k = k')) as [->|Hne].
    + split; [done | intros H; exfalso; apply H; by left].
    + rewrite IH. split.
      * by intros H [?|?]%elem_of_cons.
      * intros H Hin. apply H. by right.
Qed.

Lemma see_NoDup l x : NoDup l → NoDup (see l x).
Proof.
  intros Hl. unfold see. case_decide; [done |].
  apply NoDup_app. split_and!; [done | | apply NoDup_singleton].
  intros y Hy Hy'. apply list_elem_of_singleton in Hy' as ->. done.
Qed.

Lemma no_stub_setitem (d : pydict) k v :
  isinstance_ModuleType v = true → no_stub d → no_stub (dict_setitem d k v).
Proof.
  intros Hv. unfold no_stub. induction 1 as [|[k' v'] d Hk Hd IH]; simpl.
  - by repeat constructor.
  - destruct (decide (k = k')); constructor; done.
Qed.

(** ** The import *)

Ltac run :=
  unfold _add_package_by_name, _safe_import_by_name, _add_package,
    import_module, packages_setitem, packages_getitem,
    sys_modules_setitem, logging_warning, getattr, try_except, bind, ret,
    raise; simpl.

Lemma set_sys_modules_same s : set_sys_modules (sys_modules s) s = s.
Proof. by destruct s. Qed.

Lemma set_packages_same s : set_packages (_packages (self s)) s = s.
Proof. by destruct s as [[? ? ?] ? ?]. Qed.

(** The four ways an import can go. *)
Lemma importlib_cases name modules :
  (accepted name = false ∧
   ∃ e, is_ImportError e = false ∧
        importlib_import_module name modules = (Raise e, modules)) ∨
  (accepted name = true ∧ modules !! name = Some PyNone ∧
   importlib_import_module name modules =
     (Raise (ModuleNotFoundError name), modules)) ∨
  (accepted name = true ∧
   ∃ m, modules !! name = Some m ∧ m ≠ PyNone ∧
        importlib_import_module name modules = (Return m, modules)) ∨
  (accepted name = true ∧ modules !! name = None ∧
   ∃ cached,
     (∃ d, find_and_load name modules = (inl d, cached) ∧
           importlib_import_module name modules =
             (Return (PyModule name d),
              <[name := PyModule name d]> (modules ∪ cached))) ∨
     (∃ missing, find_and_load name modules = (inr missing, cached) ∧
                 importlib_import_module name modules =
                   (Raise (ModuleNotFoundError missing), modules ∪ cached))).
Proof.
  unfold accepted, importlib_import_module.
  destruct (String.prefix "." name).
  { left. split; [done |]. eexists. split; [| reflexivity]. done. }
  destruct (decide (name = "")) as [->|Hne].
  { left. split; [done |]. eexists. split; [| reflexivity]. done. }
  rewrite bool_decide_eq_false_2 by done. simpl. right.
  destruct (modules !! name) as [m|] eqn:Hm.
  - destruct m; try (right; left; split; [done |]; by eexists).
    by left.
  - right. right. split_and!; try done.
    destruct (find_and_load name modules) as [[d|missing] cached];
      exists cached; [left | right]; by eexists.
Qed.

(** An import replaces nothing that [sys.modules] holds. *)
Lemma importlib_keeps name modules r modules' :
  importlib_import_module name modules = (r, modules') →
  ∀ n o, modules !! n = Some o → modules' !! n = Some o.
Proof.
  intros Hrun n o Hn.
  destruct (importlib_cases name modules)
    as [(_ & e & _ & H)|[(_ & _ & H)|[(_ & m & _ & _ & H)|
        (_ & Hnone & cached & [(d & _ & H)|(missing & _ & H)])]]];
    rewrite H in Hrun; injection Hrun as <- <-; try done.
  - rewrite lookup_insert_ne by congruence. by apply lookup_union_Some_l.
  - by apply lookup_union_Some_l.
Qed.

(** What an import returns is what [sys.modules] holds under the name
    afterwards, and it is not [None]. *)
Lemma importlib_returned name modules m modules' :
  importlib_import_module name modules = (Return m, modules') →
  accepted name = true ∧ modules' !! name = Some m ∧ m ≠ PyNone.
Proof.
  intros Hrun.
  destruct (importlib_cases name modules)
    as [(_ & e & _ & H)|[(_ & _ & H)|[(Hacc & m0 & Hm0 & Hnn & H)|
        (Hacc & Hnone & cached & [(d & _ & H)|(missing & _ & H)])]]];
    rewrite H in Hrun; try done; injection Hrun as <- <-.
  - done.
  - split_and!; [done | apply lookup_insert_eq | done].
Qed.

(** An [ImportError] is raised for a name that [importlib] takes and that
    [sys.modules] does not hold, or holds as [None]. *)
Lemma importlib_failed name modules e modules' :
  importlib_import_module name modules = (Raise e, modules') →
  is_ImportError e = true →
  accepted name = true ∧
  (modules !! name = None ∨ modules !! name = Some PyNone).
Proof.
  intros Hrun He.
  destruct (importlib_cases name modules)
    as [(_ & e0 & He0 & H)|[(Hacc & Hm & H)|[(_ & m0 & _ & _ & H)|
        (Hacc & Hnone & cached & [(d & _ & H)|(missing & _ & H)])]]];
    rewrite H in Hrun; try done; injection Hrun as <- <-; auto.
  congruence.
Qed.

(** Any other error is raised before [sys.modules] is looked at. *)
Lemma importlib_refused name modules e modules' :
  importlib_import_module name modules = (Raise e, modules') →
  is_ImportError e = false →
  accepted name = false ∧ modules' = modules.
Proof.
  intros Hrun He.
  destruct (importlib_cases name modules)
    as [(Hacc & e0 & He0 & H)|[(Hacc & Hm & H)|[(_ & m0 & _ & _ & H)|
        (Hacc & Hnone & cached & [(d & _ & H)|(missing & _ & H)])]]];
    rewrite H in Hrun; try done; injection Hrun as <- <-; done.
Qed.

(** A name that [importlib] takes and [sys.modules] holds is answered
    from there. *)
Lemma importlib_cached name modules m :
  accepted name = true → modules !! name = Some m → m ≠ PyNone →
  importlib_import_module name modules = (Return m, modules).
Proof.
  intros Hacc Hm Hnn.
  destruct (importlib_cases name modules)
    as [(Hacc' & _)|[(_ & Hm' & _)|[(_ & m0 & Hm0 & _ & H)|(_ & Hnone & _)]]];
    try congruence.
Qed.

Lemma import_module_eq s name :
  import_module name s =
    ((importlib_import_module name (sys_modules s)).1,
     set_sys_modules (importlib_import_module name (sys_modules s)).2 s).
Proof.
  unfold import_module.
  by destruct (importlib_import_module name (sys_modules s)).
Qed.

Lemma import_module_inv s name r s' :
  import_module name s = (r, s') →
  importlib_import_module name (sys_modules s) = (r, sys_modules s') ∧
  s' = set_sys_modules (sys_modules s') s.
Proof.
  rewrite import_module_eq.
  destruct (importlib_import_module name (sys_modules s)) as [r0 modules].
  by intros [= <- <-].
Qed.

Lemma import_module_cached s name m :
  accepted name = true → sys_modules s !! name = Some m → m ≠ PyNone →
  import_module name s = (Return m, s).
Proof.
  intros Hacc Hm Hnn. rewrite import_module_eq.
  rewrite (importlib_cached _ _ _ Hacc Hm Hnn). simpl.
  by rewrite set_sys_modules_same.
Qed.

(** ** What each method does to the state *)

(** [_safe_import_by_name] in one equation. *)
Lemma safe_import_eq s name :
  _safe_import_by_name name s =
    match import_module name s with
    | (Return m, s1) => (Return m, s1)
    | (Raise e, s1) =>
        if is_ImportError e then (Return mock_Mock, mocked name s)
        else (Raise e, s1)
    end.
Proof.
  unfold _safe_import_by_name, try_except, mocked.
  rewrite import_module_eq.
  destruct (importlib_import_module name (sys_modules s)) as [[m|e] modules];
    simpl; [done |].
  by destruct (is_ImportError e).
Qed.

Lemma safe_import_returned s name m s1 :
  import_module name s = (Return m, s1) →
  _safe_import_by_name name s = (Return m, s1).
Proof. intros H. by rewrite safe_import_eq, H. Qed.

Lemma safe_import_raised s name e s1 :
  import_module name s = (Raise e, s1) → is_ImportError e = false →
  _safe_import_by_name name s = (Raise e, s1).
Proof. intros H He. by rewrite safe_import_eq, H, He. Qed.

Lemma safe_import_failed s name :
  import_fails s name = true →
  _safe_import_by_name name s = (Return mock_Mock, mocked name s).
Proof.
  unfold import_fails. rewrite safe_import_eq.
  destruct (import_module name s) as [[m|e] s1]; [done |]. by intros ->.
Qed.

Lemma safe_import_cached s name m :
  accepted name = true → sys_modules s !! name = Some m → m ≠ PyNone →
  _safe_import_by_name name s = (Return m, s).
Proof.
  intros Hacc Hm Hnn. apply safe_import_returned. by apply import_module_cached.
Qed.

(** The three ways [_safe_import_by_name] can go. *)
Lemma safe_import_cases s name :
  (import_fails s name = true ∧
   _safe_import_by_name name s = (Return mock_Mock, mocked name s)) ∨
  (∃ m s1, import_module name s = (Return m, s1) ∧
           _safe_import_by_name name s = (Return m, s1)) ∨
  (∃ e s1, import_module name s = (Raise e, s1) ∧ is_ImportError e = false ∧
           _safe_import_by_name name s = (Raise e, s1)).
Proof.
  destruct (import_module name s) as [[m|e] s1] eqn:Hrun.
  - right. left. exists m, s1. split; [done | by apply safe_import_returned].
  - destruct (is_ImportError e) eqn:He.
    + left. assert (import_fails s name = true) as Hfail
        by (unfold import_fails; by rewrite Hrun).
      split; [done | by apply safe_import_failed].
    + right. right. exists e, s1. split_and!; try done.
      by apply safe_import_raised.
Qed.

(** However it ends, [_safe_import_by_name] never touches [self]. *)
Lemma safe_import_self s name r s' :
  _safe_import_by_name name s = (r, s') → self s' = self s.
Proof.
  destruct (safe_import_cases s name)
    as [[_ ->]|[(m & s1 & Hrun & ->)|(e & s1 & Hrun & _ & ->)]];
    intros [= _ <-]; try done;
    apply import_module_inv in Hrun as [_ ->]; done.
Qed.

(** What it returns is what [sys.modules] holds under the name
    afterwards. *)
Lemma safe_import_settles s name m s1 :
  _safe_import_by_name name s = (Return m, s1) →
  accepted name = true ∧ sys_modules s1 !! name = Some m ∧ m ≠ PyNone ∧
  self s1 = self s.
Proof.
  intros Hrun. pose proof (safe_import_self _ _ _ _ Hrun) as Hself.
  destruct (safe_import_cases s name)
    as [[Hfail H]|[(m0 & s0 & Himp & H)|(e & s0 & _ & _ & H)]];
    rewrite H in Hrun; try done; injection Hrun as <- <-.
  - unfold import_fails in Hfail.
    destruct (import_module name s) as [[m|e] s0] eqn:Himp; [done |].
    apply import_module_inv in Himp as [Himp _].
    destruct (importlib_failed _ _ _ _ Himp Hfail) as [Hacc _].
    split_and!; try done. simpl. apply lookup_insert_eq.
  - apply import_module_inv in Himp as [Himp _].
    destruct (importlib_returned _ _ _ _ Himp) as (? & ? & ?). done.
Qed.

Lemma add_element_failed s name :
  import_fails s name = true →
  add_element (PyStr name) s = (Return tt, mocked name s).
Proof.
  intros H. unfold add_element, _add_package_by_name, bind.
  by rewrite (safe_import_failed _ _ H).
Qed.

Lemma add_element_module s n d :
  add_element (PyModule n d) s =
    (Return tt, set_packages (dict_setitem (_packages (self s)) n (PyModule n d)) s).
Proof. unfold add_element. by run. Qed.

Lemma add_element_None s : add_element PyNone s = (Return tt, s).
Proof. done. Qed.

Lemma add_element_invalid s pckg :
  valid_element pckg = false →
  add_element pckg s = (Raise (TypeError (cannot_add pckg)), s).
Proof. by destruct pckg. Qed.

(** A string whose import gives a real module is stored under the
    string. *)
Lemma add_element_resolved s name n d s1 :
  _safe_import_by_name name s = (Return (PyModule n d), s1) →
  add_element (PyStr name) s =
    (Return tt, set_packages (dict_setitem (_packages (self s1)) name (PyModule n d)) s1).
Proof.
  intros H. unfold add_element, _add_package_by_name, bind. rewrite H. by run.
Qed.

(** A string whose import gives a stand-in is passed over. *)
Lemma add_element_stub s name path s1 :
  _safe_import_by_name name s = (Return (PyMock path), s1) →
  add_element (PyStr name) s = (Return tt, s1).
Proof.
  intros H. unfold add_element, _add_package_by_name, bind. by rewrite H.
Qed.

(** A string whose import raises makes the element raise the same. *)
Lemma add_element_raised s name e s1 :
  _safe_import_by_name name s = (Raise e, s1) →
  add_element (PyStr name) s = (Raise e, s1).
Proof.
  intros H. unfold add_element, _add_package_by_name, bind. by rewrite H.
Qed.

Lemma for_each_app l1 l2 s s1 :
  for_each l1 s = (Return tt, s1) →
  for_each (l1 ++ l2) s = for_each l2 s1.
Proof.
  revert s. induction l1 as [|x l1 IH]; intros s; simpl.
  - by intros [= ->].
  - unfold bind. destruct (add_element x s) as [[[]|e] s0]; [| done].
    apply IH.
Qed.

Lemma for_each_app_inv l1 l2 s s' :
  for_each (l1 ++ l2) s = (Return tt, s') →
  ∃ s1, for_each l1 s = (Return tt, s1) ∧ for_each l2 s1 = (Return tt, s').
Proof.
  revert s. induction l1 as [|x l1 IH]; intros s; simpl.
  - intros H. by exists s.
  - unfold bind. destruct (add_element x s) as [[[]|e] s0]; [| done].
    apply IH.
Qed.

(** A list with an invalid element in it never comes to an end. *)
Lemma for_each_invalid l s :
  Exists (λ x, valid_element x = false) l →
  ∃ e s', for_each l s = (Raise e, s').
Proof.
  intros Hl. revert s. induction Hl as [x l Hx|x l _ IH]; intros s; simpl.
  - unfold bind. rewrite (add_element_invalid _ _ Hx). eauto.
  - unfold bind. destruct (add_element x s) as [[[]|e] s0] eqn:Hx; cbn [for_each].
    + apply IH.
    + eauto.
Qed.

Lemma for_each_skips_None pre rest s :
  for_each (pre ++ PyNone :: rest) s = for_each (pre ++ rest) s.
Proof.
  revert s. induction pre as [|x pre IH]; intros s; simpl; [done |].
  unfold bind. destruct (add_element x s) as [[[]|e] s0]; [apply IH | done].
Qed.

(** ** The registry: [add_packages] *)

(** C3, as amended: a string element whose import raises an [ImportError],
    at any place of the list handed to [add_packages], does not raise; it
    stores nothing ([self] is as before, so a name that was not registered
    is still not among [names]); it logs one warning that spells the
    identifier; and the elements after it are processed from the state it
    leaves.  A string whose stand-in is cached already is passed over
    without a warning.  A string whose import raises anything else (the
    empty name, a relative name) makes [add_packages] raise that error
    there and then. *)
Theorem failed_import_is_skipped (pre rest : list object) (name : string)
    (s s1 : state) :
  add_packages (PyList pre) s = (Return tt, s1) →
  (import_fails s1 name = true →
   ∃ s2,
     add_element (PyStr name) s1 = (Return tt, s2) ∧
     self s2 = self s1 ∧
     (name ∉ names s1 → name ∉ names s2) ∧
     warnings s2 = warnings s1 ++
       ["Could not import module `" +:+ name +:+ "`. This will be mocked."] ∧
     add_packages (PyList (pre ++ PyStr name :: rest)) s =
       add_packages (PyList rest) s2) ∧
  (∀ path, import_module name s1 = (Return (PyMock path), s1) →
     add_element (PyStr name) s1 = (Return tt, s1) ∧
     add_packages (PyList (pre ++ PyStr name :: rest)) s =
       add_packages (PyList rest) s1) ∧
  (∀ e s2, import_module name s1 = (Raise e, s2) → is_ImportError e = false →
     add_packages (PyList (pre ++ PyStr name :: rest)) s = (Raise e, s2)).
Proof.
  unfold add_packages. intros Hpre. split_and!.
  - intros Hfail. exists (mocked name s1). split_and!; try done.
    + by apply add_element_failed.
    + rewrite (for_each_app _ _ _ _ Hpre). cbn [for_each]. unfold bind at 1.
      by rewrite (add_element_failed _ _ Hfail).
  - intros path Hstub.
    pose proof (add_element_stub _ _ _ _ (safe_import_returned _ _ _ _ Hstub)) as Hx.
    split; [done |].
    rewrite (for_each_app _ _ _ _ Hpre). cbn [for_each]. unfold bind at 1.
    by rewrite Hx.
  - intros e s2 Hrun He.
    pose proof (add_element_raised _ _ _ _ (safe_import_raised _ _ _ _ Hrun He)) as Hx.
    rewrite (for_each_app _ _ _ _ Hpre). cbn [for_each]. unfold bind at 1.
    by rewrite Hx.
Qed.

(** C6: an element that is neither a string, nor a module, nor [None]
    raises a [TypeError] with the state untouched, so no entry is added for
    it, and a list that holds such an element never comes to an end:
    [add_packages] raises, at that element or before it.  [None] is passed
    over: it changes nothing where it stands, and the call goes as if it
    were not in the list. *)
Theorem invalid_element_raises (l : list object) (s : state) :
  (Exists (λ x, valid_element x = false) l →
   ∃ e s', add_packages (PyList l) s = (Raise e, s')) ∧
  (∀ x s0, valid_element x = false →
     add_element x s0 =
       (Raise (TypeError ("Cannot add package from type (" +:+ type_repr x +:+ ")")), s0)) ∧
  (∀ s0, add_element PyNone s0 = (Return tt, s0)) ∧
  (∀ pre rest,
     add_packages (PyList (pre ++ PyNone :: rest)) s =
     add_packages (PyList (pre ++ rest)) s).
Proof.
  split_and!.
  - apply for_each_invalid.
  - intros x s0 Hx. by apply add_element_invalid.
  - done.
  - intros pre rest. apply for_each_skips_None.
Qed.

(** C9: when the elements before an invalid one have been processed, the
    [TypeError] of the invalid one leaves the state exactly as they made
    it (nothing is rolled back) whatever follows it in the list (nothing
    after it is processed); an argument that is no list and no tuple
    raises before anything is touched. *)
Theorem add_packages_not_atomic (pre rest : list object) (x : object)
    (s s1 : state) :
  add_packages (PyList pre) s = (Return tt, s1) →
  valid_element x = false →
  add_packages (PyList (pre ++ x :: rest)) s =
    (Raise (TypeError (cannot_add x)), s1) ∧
  (∀ packages s0, is_sequence packages = false →
     add_packages packages s0 =
       (Raise (TypeError "You must pass a list of packages or package names."), s0)).
Proof.
  unfold add_packages at 1 2. intros Hpre Hx. split.
  - rewrite (for_each_app _ _ _ _ Hpre). cbn [for_each]. unfold bind.
    by rewrite (add_element_invalid _ _ Hx).
  - intros packages s0 Hp. by destruct packages.
Qed.

(** ** The resolver: [get_version] *)

Lemma fetch_module_registered s name m :
  dict_getitem (_packages (self s)) name = Some m →
  fetch_module (PyStr name) s = (Return (name, m), s).
Proof. intros H. unfold fetch_module. run. by rewrite H. Qed.

Lemma fetch_module_unregistered s name m s1 :
  dict_getitem (_packages (self s)) name = None →
  _safe_import_by_name name s = (Return m, s1) →
  fetch_module (PyStr name) s = (Return (name, m), s1).
Proof.
  intros H Hi. unfold fetch_module, bind, try_except, packages_getitem.
  rewrite H. simpl. by rewrite Hi.
Qed.

Lemma fetch_module_raised s name e s1 :
  dict_getitem (_packages (self s)) name = None →
  _safe_import_by_name name s = (Raise e, s1) →
  fetch_module (PyStr name) s = (Raise e, s1).
Proof.
  intros H Hi. unfold fetch_module, bind, try_except, packages_getitem.
  rewrite H. simpl. by rewrite Hi.
Qed.

Lemma fetch_module_rejects s pckg :
  name_or_handle pckg = false →
  fetch_module pckg s = (Raise (TypeError (cannot_fetch pckg)), s).
Proof. by destruct pckg. Qed.

Lemma read_version_override name module v s :
  overridden name module = Some v →
  read_version name module s = (Return v, s).
Proof.
  unfold overridden, read_version, knowledge_getitem. run.
  destruct (VERSION_ATTRIBUTES !! name) as [attr|]; simpl; [| done].
  by intros ->.
Qed.

Lemma read_version_conventional name module v s :
  overridden name module = None →
  lookup_attr module "__version__" = Some v →
  read_version name module s = (Return v, s).
Proof.
  unfold overridden, read_version, knowledge_getitem. run.
  intros Ho Hv.
  destruct (VERSION_ATTRIBUTES !! name) as [attr|]; simpl in *.
  - by rewrite Ho, Hv.
  - by rewrite Hv.
Qed.

Lemma read_version_unknown name module s :
  overridden name module = None →
  lookup_attr module "__version__" = None →
  read_version name module s =
    (Return (PyStr "unknown"), add_warning (version_unknown name) s).
Proof.
  unfold overridden, read_version, knowledge_getitem. run.
  intros Ho Hv.
  destruct (VERSION_ATTRIBUTES !! name) as [attr|]; simpl in *.
  - by rewrite Ho, Hv.
  - by rewrite Hv.
Qed.

(** The second half always returns; it may log, and touches nothing
    else. *)
Lemma read_version_returns name module s :
  ∃ v s', read_version name module s = (Return v, s') ∧
          self s' = self s ∧ sys_modules s' = sys_modules s.
Proof.
  destruct (overridden name module) as [v|] eqn:Ho.
  { eexists _, _. split; [by apply read_version_override | done]. }
  destruct (lookup_attr module "__version__") as [v|] eqn:Hv.
  { eexists _, _. split; [by apply read_version_conventional | done]. }
  eexists _, _. split; [by apply read_version_unknown | done].
Qed.

(** The first half, for a string and for a module: what it returns, or
    what the one-off import raised. *)
Lemma fetch_module_outcome pckg s :
  name_or_handle pckg = true →
  match fetch_module pckg s with
  | (Return (name, module), s1) =>
      match pckg with
      | PyStr n =>
          name = n ∧
          match dict_getitem (_packages (self s)) n with
          | Some m => module = m ∧ s1 = s
          | None => _safe_import_by_name n s = (Return module, s1)
          end
      | PyModule n _ => name = n ∧ module = pckg ∧ s1 = s
      | _ => False
      end
  | (Raise e, s1) =>
      ∃ n, pckg = PyStr n ∧
           dict_getitem (_packages (self s)) n = None ∧
           import_module n s = (Raise e, s1) ∧
           is_ImportError e = false
  end.
Proof.
  destruct pckg as [| |n| | |n d| | |]; try done; intros _.
  destruct (dict_getitem (_packages (self s)) n) as [m|] eqn:Hreg.
  { by rewrite (fetch_module_registered _ _ _ Hreg). }
  destruct (safe_import_cases s n)
    as [[_ Hi]|[(m & s1 & _ & Hi)|(e & s1 & Hrun & He & Hi)]].
  - by rewrite (fetch_module_unregistered _ _ _ _ Hreg Hi).
  - by rewrite (fetch_module_unregistered _ _ _ _ Hreg Hi).
  - rewrite (fetch_module_raised _ _ _ _ Hreg Hi). by exists n.
Qed.

(** However it ends, [get_version] never touches [self]. *)
Lemma get_version_self pckg s : self (get_version pckg s).2 = self s.
Proof.
  unfold get_version, bind.
  destruct (fetch_module pckg s) as [[[name module]|e] s1] eqn:Hf.
  - assert (self s1 = self s) as Hs1.
    { destruct pckg as [| |n| | |n d| | |]; try done.
      - destruct (dict_getitem (_packages (self s)) n) as [m|] eqn:Hreg.
        + rewrite (fetch_module_registered _ _ _ Hreg) in Hf. by injection Hf as _ _ <-.
        + destruct (_safe_import_by_name n s) as [[m|e] s0] eqn:Hi.
          * rewrite (fetch_module_unregistered _ _ _ _ Hreg Hi) in Hf.
            injection Hf as _ _ <-. by eapply safe_import_self.
          * by rewrite (fetch_module_raised _ _ _ _ Hreg Hi) in Hf.
      - by injection Hf as _ _ <-. }
    cbv beta iota. cbn [fst snd].
    destruct (read_version_returns name module s1) as (v & s' & -> & Hs' & _).
    simpl. congruence.
  - simpl. destruct pckg as [| |n| | |n d| | |];
      try (by injection Hf as _ <-).
    destruct (dict_getitem (_packages (self s)) n) as [m|] eqn:Hreg.
    + by rewrite (fetch_module_registered _ _ _ Hreg) in Hf.
    + destruct (_safe_import_by_name n s) as [[m|e0] s0] eqn:Hi.
      * by rewrite (fetch_module_unregistered _ _ _ _ Hreg Hi) in Hf.
      * rewrite (fetch_module_raised _ _ _ _ Hreg Hi) in Hf.
        injection Hf as _ <-. by eapply safe_import_self.
Qed.

(** C1, as amended: for a string or a module, [get_version] first settles
    the name and the handle (a string stands for itself, and its handle is
    the registered one or else what the one-off import gives; a module
    brings its own name and is the handle).  When the one-off import of an
    unregistered string raises anything but an [ImportError],
    [get_version] raises that error.  In every other case it answers in
    this order: the value of the overridden attribute when the table has
    the name and the handle has the attribute, whatever [__version__]
    holds; otherwise the value of [__version__] when the handle has it;
    otherwise the string "unknown" after a warning that spells the name. *)
Theorem get_version_fallback_order (pckg : object) (s : state) :
  name_or_handle pckg = true →
  match fetch_module pckg s with
  | (Return (name, module), s1) =>
      match pckg with
      | PyStr n =>
          name = n ∧
          match dict_getitem (_packages (self s)) n with
          | Some m => module = m ∧ s1 = s
          | None => _safe_import_by_name n s = (Return module, s1)
          end
      | PyModule n _ => name = n ∧ module = pckg ∧ s1 = s
      | _ => False
      end ∧
      (∀ v, overridden name module = Some v →
            get_version pckg s = (Return v, s1)) ∧
      (∀ v, overridden name module = None →
            lookup_attr module "__version__" = Some v →
            get_version pckg s = (Return v, s1)) ∧
      (overridden name module = None →
       lookup_attr module "__version__" = None →
       get_version pckg s =
         (Return (PyStr "unknown"),
          add_warning ("Varsion attribute for `" +:+ name +:+ "` is unknown.") s1))
  | (Raise e, s1) =>
      (∃ n, pckg = PyStr n ∧
            dict_getitem (_packages (self s)) n = None ∧
            import_module n s = (Raise e, s1) ∧
            is_ImportError e = false) ∧
      get_version pckg s = (Raise e, s1)
  end.
Proof.
  intros Hp. pose proof (fetch_module_outcome pckg s Hp) as Hwhat.
  unfold get_version, bind.
  destruct (fetch_module pckg s) as [[[name module]|e] s1] eqn:Hf; simpl.
  - split_and!; try done.
    + intros v Ho. by apply read_version_override.
    + intros v Ho Hv. by apply read_version_conventional.
    + intros Ho Hv. by apply read_version_unknown.
  - done.
Qed.

(** C5: whatever it is asked, [get_version] leaves [self] as it found it:
    the package mapping, [ncol] and [text_width]; a string that was not
    registered is not registered afterwards either, although the one-off
    import was attempted. *)
Theorem get_version_keeps_registry (pckg : object) (s : state) :
  _packages (self (get_version pckg s).2) = _packages (self s) ∧
  ncol (self (get_version pckg s).2) = ncol (self s) ∧
  text_width (self (get_version pckg s).2) = text_width (self s) ∧
  (∀ name, pckg = PyStr name → name ∉ names s →
           name ∉ names (get_version pckg s).2).
Proof.
  pose proof (get_version_self pckg s) as Hs.
  unfold names. rewrite Hs. by split_and!.
Qed.

(** ** The stand-in and the module cache *)

Lemma add_element_no_stub x s r s' :
  no_stub (_packages (self s)) →
  add_element x s = (r, s') →
  no_stub (_packages (self s')).
Proof.
  intros Hs. destruct x as [| |name| | |n d| | |]; simpl;
    try (by intros [= _ <-]).
  - unfold _add_package_by_name, bind.
    destruct (_safe_import_by_name name s) as [[m|e] s1] eqn:Hi.
    + rewrite <- (safe_import_self _ _ _ _ Hi) in Hs.
      destruct m; run; intros [= _ <-]; try done.
      by apply no_stub_setitem.
    + intros [= _ <-]. by rewrite (safe_import_self _ _ _ _ Hi).
  - run. intros [= _ <-]. by apply no_stub_setitem.
Qed.

Lemma for_each_no_stub l s r s' :
  no_stub (_packages (self s)) →
  for_each l s = (r, s') →
  no_stub (_packages (self s')).
Proof.
  revert s. induction l as [|x l IH]; intros s Hs; simpl.
  - by intros [= _ <-].
  - unfold bind. destruct (add_element x s) as [[[]|e] s0] eqn:Hx.
    + apply IH. by eapply add_element_no_stub.
    + intros [= _ <-]. by eapply add_element_no_stub.
Qed.


(** ** Names and their order *)

Lemma safe_import_modules s name r s' :
  _safe_import_by_name name s = (r, s') →
  sys_modules s' = after_import name (sys_modules s).
Proof.
  rewrite safe_import_eq, import_module_eq. unfold after_import, mocked.
  destruct (importlib_import_module name (sys_modules s)) as [[m|e] modules];
    simpl; [by intros [= _ <-] |].
  destruct (is_ImportError e); by intros [= _ <-].
Qed.

Lemma imports_module_spec s name :
  imports_module (sys_modules s) name =
    match _safe_import_by_name name s with
    | (Return m, _) => isinstance_ModuleType m
    | (Raise _, _) => false
    end.
Proof.
  rewrite safe_import_eq, import_module_eq. unfold imports_module.
  destruct (importlib_import_module name (sys_modules s)) as [[m|e] modules];
    simpl; [done |].
  by destruct (is_ImportError e).
Qed.

Lemma handled_spec s name :
  handled (sys_modules s) name =
    match _safe_import_by_name name s with
    | (Return m, _) => isinstance_ModuleType m || isinstance_Mock m
    | (Raise _, _) => false
    end.
Proof.
  rewrite safe_import_eq, import_module_eq. unfold handled.
  destruct (importlib_import_module name (sys_modules s)) as [[m|e] modules];
    simpl; [done |].
  by destruct (is_ImportError e).
Qed.

(** What a string does whose import is handled: the element returns, and
    the name is appended when it resolves and is new. *)
Lemma add_element_handled s name :
  handled (sys_modules s) name = true →
  ∃ s', add_element (PyStr name) s = (Return tt, s') ∧
        sys_modules s' = after_import name (sys_modules s) ∧
        names s' =
          foldl see (names s) (if imports_module (sys_modules s) name then [name] else []).
Proof.
  rewrite handled_spec, imports_module_spec.
  destruct (_safe_import_by_name name s) as [[m|e] s1] eqn:Hi; [| done].
  pose proof (safe_import_modules _ _ _ _ Hi) as Hmods.
  pose proof (safe_import_self _ _ _ _ Hi) as Hself.
  destruct m as [| | | | |n d|path| |]; try done; intros _.
  - eexists. split; [by apply (add_element_resolved _ _ _ _ _ Hi) |].
    split; [done |]. unfold names. simpl. rewrite dict_keys_setitem. by rewrite Hself.
  - exists s1. split; [by apply (add_element_stub _ _ _ _ Hi) |].
    split; [done |]. unfold names. by rewrite Hself.
Qed.

Lemma for_each_handled l s :
  Forall (λ x, valid_element x = true) l →
  all_handled (sys_modules s) l →
  ∃ s', for_each l s = (Return tt, s') ∧
        names s' = foldl see (names s) (resolved_names (sys_modules s) l).
Proof.
  intros Hl. revert s. induction Hl as [|x l Hx _ IH]; intros s Hh.
  - by exists s.
  - destruct x as [| |name| | |n d| | |]; try done; cbn [for_each]; unfold bind.
    + destruct (IH s Hh) as (s' & Hrun & Hn). by exists s'.
    + destruct Hh as [Hname Hrest].
      destruct (add_element_handled s name Hname) as (s1 & -> & Hmods & Hn1).
      rewrite <- Hmods in Hrest.
      destruct (IH s1 Hrest) as (s' & Hrun & Hn). exists s'. split; [done |].
      cbn [resolved_names]. by rewrite foldl_app, <- Hn1, <- Hmods.
    + rewrite add_element_module.
      destruct (IH (set_packages (dict_setitem (_packages (self s)) n (PyModule n d)) s) Hh)
        as (s' & Hrun & Hn).
      exists s'. split; [done |]. rewrite Hn. cbn [resolved_names foldl].
      unfold names at 1. simpl. by rewrite dict_keys_setitem.
Qed.

Lemma safety_supplied x l s :
  supplied x = Some l → safety x s = (Return l, s).
Proof.
  unfold supplied, safety.
  destruct x; simpl; try done; intros [= <-]; try done;
    match goal with |- context [length ?l] => by destruct l end.
Qed.

Lemma filter_absent (l : list string) x :
  x ∉ l → filter (λ k, k = x) l = [].
Proof.
  induction l as [|y l IH]; [done |].
  intros Hx. rewrite filter_cons. destruct (decide (y = x)) as [->|Hne].
  - exfalso. apply Hx. by left.
  - apply IH. intros Hin. apply Hx. by right.
Qed.

Lemma entries_NoDup (l : list string) x :
  NoDup l → x ∈ l → length (filter (λ k, k = x) l) = 1.
Proof.
  induction 1 as [|y l Hy Hl IH]; [by intros ?%elem_of_nil |].
  intros Hin. rewrite filter_cons. destruct (decide (y = x)) as [->|Hne].
  - simpl. by rewrite filter_absent.
  - apply IH. apply elem_of_cons in Hin as [?|?]; done.
Qed.

Lemma elem_of_see l x : x ∈ see l x.
Proof. unfold see. case_decide; [done |]. apply elem_of_app. right. by left. Qed.

Lemma see_present l x : x ∈ l → see l x = l.
Proof. intros H. unfold see. by rewrite decide_True. Qed.

(** Once a module is cached and registered under a name, adding the name
    again changes nothing at all. *)
Lemma add_element_again s name n d :
  accepted name = true →
  sys_modules s !! name = Some (PyModule n d) →
  dict_getitem (_packages (self s)) name = Some (PyModule n d) →
  add_element (PyStr name) s = (Return tt, s).
Proof.
  intros Hacc Hm Hreg.
  assert (PyModule n d ≠ PyNone) as Hnn by done.
  rewrite (add_element_resolved _ _ _ _ _ (safe_import_cached _ _ _ Hacc Hm Hnn)).
  by rewrite (dict_setitem_same _ _ _ Hreg), set_packages_same.
Qed.

(** C4: when the three constructor arguments stand for lists of strings,
    modules and [None]s, and the import of each string, when its turn
    comes, gives a module or a stand-in or raises an [ImportError],
    [__init__] returns and the registered names are the names that
    resolved, core first, then optional, then additional, each at the
    place of its first occurrence; whether a string resolves is settled in
    the [sys.modules] that the elements before it have left.  Adding a
    module, by handle or by a name that imports it, returns; when its name
    is registered already, the sequence of names is as it was (no new
    entry, no move); the module added last is the handle of the name, and
    the handles of the other names are left alone. *)
Theorem names_after_construction (core optional additional : object)
    (cs os adds : list object) (columns width : Z) (s : state) :
  supplied core = Some cs →
  supplied optional = Some os →
  supplied additional = Some adds →
  Forall (λ x, valid_element x = true) (cs ++ os ++ adds) →
  all_handled (sys_modules s) (cs ++ os ++ adds) →
  (∃ s', __init__ core optional additional columns width s = (Return tt, s') ∧
         names s' =
           first_occurrences (resolved_names (sys_modules s) (cs ++ os ++ adds))) ∧
  (∀ s0 n d,
     ∃ s1, add_packages (PyList [PyModule n d]) s0 = (Return tt, s1) ∧
           (n ∈ names s0 → names s1 = names s0) ∧
           dict_getitem (_packages (self s1)) n = Some (PyModule n d) ∧
           (∀ other, other ≠ n →
              dict_getitem (_packages (self s1)) other =
              dict_getitem (_packages (self s0)) other)) ∧
  (∀ s0 name module s0',
     import_module name s0 = (Return module, s0') →
     isinstance_ModuleType module = true →
     ∃ s1, add_packages (PyList [PyStr name]) s0 = (Return tt, s1) ∧
           (name ∈ names s0 → names s1 = names s0) ∧
           dict_getitem (_packages (self s1)) name = Some module ∧
           (∀ other, other ≠ name →
              dict_getitem (_packages (self s1)) other =
              dict_getitem (_packages (self s0)) other)).
Proof.
  intros Hc Ho Ha Hvalid Hhandled. split_and!.
  - set (s0 := mkState (mkVersions columns width []) (sys_modules s) (warnings s)).
    destruct (for_each_handled (cs ++ os ++ adds) s0 Hvalid Hhandled)
      as (s' & Hrun & Hn).
    apply for_each_app_inv in Hrun as (s1 & Hrun1 & Hrun).
    apply for_each_app_inv in Hrun as (s2 & Hrun2 & Hrun3).
    exists s'. split; [| done].
    unfold __init__, bind, init_self. fold s0.
    rewrite (safety_supplied _ _ _ Hc), (safety_supplied _ _ _ Ho),
      (safety_supplied _ _ _ Ha).
    unfold add_packages. by rewrite Hrun1, Hrun2.
  - intros s0 n d. eexists. split_and!.
    + unfold add_packages. cbn [for_each]. unfold bind.
      by rewrite add_element_module.
    + intros Hin. unfold names. simpl. rewrite dict_keys_setitem.
      by apply see_present.
    + simpl. apply dict_getitem_setitem.
    + intros other Hne. simpl. by apply dict_getitem_setitem_ne.
  - intros s0 name module s0' Hrun Hmod.
    destruct module as [| | | | |n d| | |]; try done.
    pose proof (safe_import_returned _ _ _ _ Hrun) as Hi.
    pose proof (safe_import_self _ _ _ _ Hi) as Hself.
    eexists. split_and!.
    + unfold add_packages. cbn [for_each]. unfold bind.
      by rewrite (add_element_resolved _ _ _ _ _ Hi).
    + intros Hin. unfold names. simpl. rewrite dict_keys_setitem, Hself.
      by apply see_present.
    + simpl. apply dict_getitem_setitem.
    + intros other Hne. simpl. rewrite Hself. by apply dict_getitem_setitem_ne.
Qed.

(** C7: for a name that resolves, in a registry whose names are distinct
    as the keys of a dictionary are, adding the name and adding it again
    both return; after the second add the name has exactly one entry, the
    names and handles are those after the first add, and [get_version]
    gives for the name what it gives after the first add. *)
Theorem add_twice_is_idempotent (name : string) (s : state) :
  NoDup (names s) →
  resolves s name = true →
  ∃ s1 s2,
    add_packages (PyList [PyStr name]) s = (Return tt, s1) ∧
    add_packages (PyList [PyStr name]) s1 = (Return tt, s2) ∧
    entries s2 name = 1 ∧
    _packages (self s2) = _packages (self s1) ∧
    (get_version (PyStr name) s2).1 = (get_version (PyStr name) s1).1.
Proof.
  intros Hnd Hres.
  assert (∃ n d s0, _safe_import_by_name name s = (Return (PyModule n d), s0) ∧
                    accepted name = true ∧
                    sys_modules s0 !! name = Some (PyModule n d) ∧
                    self s0 = self s) as (n & d & s0 & Hi & Hacc & Hm0 & Hself).
  { unfold resolves in Hres. rewrite imports_module_spec in Hres.
    destruct (_safe_import_by_name name s) as [[m|e] s0] eqn:Hi; [| done].
    destruct m as [| | | | |n d| | |]; try done.
    exists n, d, s0.
    destruct (safe_import_settles _ _ _ _ Hi) as (? & ? & _ & ?). done. }
  pose proof (add_element_resolved _ _ _ _ _ Hi) as Hadd.
  set (s1 := set_packages (dict_setitem (_packages (self s0)) name (PyModule n d)) s0)
    in Hadd.
  assert (add_element (PyStr name) s1 = (Return tt, s1)) as Hagain.
  { apply (add_element_again s1 name n d); [done | done |].
    simpl. apply dict_getitem_setitem. }
  exists s1, s1. unfold add_packages. cbn [for_each]. unfold bind.
  rewrite Hadd, Hagain. split_and!; try done.
  unfold entries, names. simpl. rewrite dict_keys_setitem, Hself.
  apply entries_NoDup; [by apply see_NoDup | apply elem_of_see].
Qed.

(** ** The runtime version block *)

Lemma append_assoc (a b c : string) : (a +:+ b) +:+ c = a +:+ b +:+ c.
Proof.
  induction a as [|x a IH]; [done |].
  change (String x ((a +:+ b) +:+ c) = String x (a +:+ b +:+ c)).
  by f_equal.
Qed.

Lemma append_empty (a : string) : a +:+ "" = a.
Proof.
  induction a as [|x a IH]; [done |].
  change (String x (a +:+ "") = String x a). by f_equal.
Qed.

Lemma length_indented (txt : string) :
  String.length ("  " +:+ txt) = S (S (String.length txt)).
Proof. done. Qed.

Lemma sys_version_loop (lines : list string) (text : string) :
  foldl (λ text txt, text +:+ "  " +:+ txt +:+ LF) text lines =
  text +:+ block lines.
Proof.
  revert text. induction lines as [|txt lines IH]; intros text;
    cbn [foldl block].
  - by rewrite append_empty.
  - rewrite IH. by rewrite !append_assoc.
Qed.

(** What [textwrap.wrap] raises, [sys_version] raises. *)
Lemma sys_version_propagates (s : state) (e : exn) :
  textwrap_wrap sys_version_string (text_width (self s) - 4) = Raise e →
  sys_version s = (Raise e, s).
Proof. intros H. unfold sys_version. by rewrite H. Qed.

(** C8: [sys_version] hands [sys.version] to [textwrap.wrap] with four
    columns less than [text_width]; when that call returns lines that keep
    to the width it was given, as [textwrap.wrap] promises, the text is a
    line feed followed by the lines, each behind two blanks and ended by a
    line feed, and no printed line takes more than [text_width - 2]
    columns, hence none more than [text_width]. *)
Theorem sys_version_is_wrapped (s : state) (lines : list string) :
  textwrap_wrap sys_version_string (text_width (self s) - 4) = Return lines →
  Forall (fits (text_width (self s) - 4)) lines →
  sys_version s = (Return (LF +:+ block lines), s) ∧
  Forall (fits (text_width (self s) - 2)) (printed lines) ∧
  Forall (fits (text_width (self s))) (printed lines).
Proof.
  intros Hwrap Hfit. split_and!.
  - unfold sys_version. rewrite Hwrap. by rewrite sys_version_loop.
  - unfold printed. apply Forall_fmap. eapply Forall_impl; [exact Hfit |].
    intros txt. unfold fits, compose. rewrite length_indented. lia.
  - unfold printed. apply Forall_fmap. eapply Forall_impl; [exact Hfit |].
    intros txt. unfold fits, compose. rewrite length_indented. lia.
Qed.


(** ** Components that are absent *)

(** [get_version] raises in two cases only: for what is neither a string
    nor a module it raises [TypeError] with the state untouched, and for
    an unregistered string whose import raises anything but an
    [ImportError] it raises that error. *)
Lemma get_version_raises pckg s e s' :
  get_version pckg s = (Raise e, s') →
  (name_or_handle pckg = false ∧ e = TypeError (cannot_fetch pckg) ∧ s' = s) ∨
  (∃ n, pckg = PyStr n ∧ (n ∉ names s) ∧
        import_module n s = (Raise e, s') ∧ is_ImportError e = false).
Proof.
  destruct (name_or_handle pckg) eqn:Hp.
  - pose proof (fetch_module_outcome pckg s Hp) as Hwhat.
    unfold get_version, bind.
    destruct (fetch_module pckg s) as [[[name module]|e0] s1].
    + cbv beta iota. cbn [fst snd].
      destruct (read_version_returns name module s1) as (v & s2 & -> & _). done.
    + intros [= <- <-]. right.
      destruct Hwhat as (n & -> & Hreg%dict_getitem_None & Hrun & He).
      by exists n.
  - unfold get_version, bind. rewrite (fetch_module_rejects _ _ Hp).
    intros [= <- <-]. by left.
Qed.

(** An absent component whose name the override table does not list
    degrades to the sentinel, after the two warnings, when a stand-in has
    no [__version__]. *)
Lemma get_version_absent_unlisted name s :
  name ∉ names s →
  import_fails s name = true →
  VERSION_ATTRIBUTES !! name = None →
  lookup_attr mock_Mock "__version__" = None →
  get_version (PyStr name) s =
    (Return (PyStr "unknown"),
     add_warning (version_unknown name) (mocked name s)).
Proof.
  intros Hreg%dict_getitem_None Hfail Hk Hv.
  unfold get_version, bind.
  rewrite (fetch_module_unregistered _ _ _ _ Hreg (safe_import_failed _ _ Hfail)).
  simpl. apply read_version_unknown; [| done].
  unfold overridden. by rewrite Hk.
Qed.

(** An absent component whose name the override table lists under an
    attribute that the stand-in answers: that answer is returned as the
    version, and no warning about the version is logged. *)
Lemma get_version_absent_listed name attr v s :
  name ∉ names s →
  import_fails s name = true →
  VERSION_ATTRIBUTES !! name = Some attr →
  lookup_attr mock_Mock attr = Some v →
  get_version (PyStr name) s = (Return v, mocked name s).
Proof.
  intros Hreg%dict_getitem_None Hfail Hk Hattr.
  unfold get_version, bind.
  rewrite (fetch_module_unregistered _ _ _ _ Hreg (safe_import_failed _ _ Hfail)).
  simpl. apply read_version_override.
  unfold overridden. by rewrite Hk.
Qed.

(** ** Further properties of the registry *)

Lemma continues_refl s : continues s s.
Proof. by split_and!. Qed.

Lemma continues_trans s1 s2 s3 :
  continues s1 s2 → continues s2 s3 → continues s1 s3.
Proof.
  intros (Hn & Hc & Hw & Hd & Hm & Hl) (Hn' & Hc' & Hw' & Hd' & Hm' & Hl').
  split_and!.
  - by etrans.
  - congruence.
  - congruence.
  - auto.
  - intros name o Ho Hnn. apply Hm'; [by apply Hm | done].
  - by etrans.
Qed.

Lemma see_prefix l x : l `prefix_of` see l x.
Proof. unfold see. case_decide; [done |]. by apply prefix_app_r. Qed.

Lemma continues_setitem s k v :
  continues s (set_packages (dict_setitem (_packages (self s)) k v) s).
Proof.
  split_and!; try done; unfold names; simpl; rewrite dict_keys_setitem.
  - apply see_prefix.
  - apply see_NoDup.
Qed.

Lemma continues_insert s name o :
  (sys_modules s !! name = None ∨ sys_modules s !! name = Some PyNone) →
  continues s (set_sys_modules (<[name := o]> (sys_modules s)) s).
Proof.
  intros Hfree. split_and!; try done.
  intros n o' Ho' Hnn. simpl. destruct (decide (name = n)) as [<-|Hne].
  - destruct Hfree as [H|H]; rewrite H in Ho'; [done | by injection Ho' as <-].
  - by rewrite lookup_insert_ne.
Qed.

Lemma continues_warning s msg : continues s (add_warning msg s).
Proof. split_and!; try done. simpl. by apply prefix_app_r. Qed.

(** An import adds to [sys.modules] and touches nothing else. *)
Lemma import_module_continues s name r s' :
  import_module name s = (r, s') → continues s s'.
Proof.
  intros [Hrun ->]%import_module_inv. split_and!; try done.
  intros n o Ho _. simpl. by eapply importlib_keeps.
Qed.

Lemma continues_mocked s name :
  import_fails s name = true → continues s (mocked name s).
Proof.
  intros Hfail. unfold import_fails in Hfail.
  destruct (import_module name s) as [[m|e] s1] eqn:Hrun; [done |].
  pose proof (import_module_continues _ _ _ _ Hrun) as Hc.
  apply import_module_inv in Hrun as [Hrun Hs1].
  destruct (importlib_failed _ _ _ _ Hrun Hfail) as [_ Hfree].
  destruct Hc as (Hn & Hcol & Hw & Hd & Hm & Hl).
  unfold mocked. rewrite Hrun. split_and!; try done.
  - intros n o Ho Hnn. simpl. destruct (decide (name = n)) as [<-|Hne].
    + destruct Hfree as [H|H]; rewrite H in Ho; [done | by injection Ho as <-].
    + rewrite lookup_insert_ne by done. by apply Hm.
  - simpl. by apply prefix_app_r.
Qed.

Lemma safe_import_continues s name r s' :
  _safe_import_by_name name s = (r, s') → continues s s'.
Proof.
  destruct (safe_import_cases s name)
    as [[Hfail ->]|[(m & s1 & Hrun & ->)|(e & s1 & Hrun & _ & ->)]];
    intros [= _ <-].
  - by apply continues_mocked.
  - by eapply import_module_continues.
  - by eapply import_module_continues.
Qed.

Lemma add_element_continues x s r s' :
  add_element x s = (r, s') → continues s s'.
Proof.
  destruct x as [| |name| | |n d| | |]; simpl;
    try (intros [= _ <-]; apply continues_refl).
  - unfold _add_package_by_name, bind.
    destruct (_safe_import_by_name name s) as [[m|e] s1] eqn:Hi.
    + pose proof (safe_import_continues _ _ _ _ Hi) as Hc.
      destruct m; run; intros [= _ <-]; try done.
      eapply continues_trans; [exact Hc | apply continues_setitem].
    + intros [= _ <-]. by eapply safe_import_continues.
  - run. intros [= _ <-]. apply continues_setitem.
Qed.

Lemma for_each_continues l s r s' :
  for_each l s = (r, s') → continues s s'.
Proof.
  revert s. induction l as [|x l IH]; intros s; simpl.
  - intros [= _ <-]. apply continues_refl.
  - unfold bind. destruct (add_element x s) as [[[]|e] s0] eqn:Hx.
    + intros H. eapply continues_trans; [by eapply add_element_continues | by apply IH].
    + intros [= _ <-]. by eapply add_element_continues.
Qed.

Lemma add_packages_continues packages s r s' :
  add_packages packages s = (r, s') → continues s s'.
Proof.
  destruct packages; simpl; try (intros [= _ <-]; apply continues_refl);
    apply for_each_continues.
Qed.

(** [_add_package] refuses what is no module and leaves the state alone.
    The refusal is the [TypeError] of its own check when the name is a
    string, and also when it is not but the object has a [__name__], as a
    function or a class has; it is the [AttributeError] of reading
    [module.__name__], which comes first, when the object has none. *)
Theorem add_package_rejects_non_module (module name : object) (s : state) :
  isinstance_ModuleType module = false →
  _add_package module name s =
    (Raise (if isinstance_str name ||
               bool_decide (is_Some (lookup_attr module "__name__"))
            then TypeError "Module passed is not a module."
            else AttributeError "__name__"), s).
Proof.
  intros Hm.
  destruct (isinstance_str name) eqn:Hname.
  { destruct name; try done. by destruct module. }
  assert (_add_package module name s =
          (getattr module "__name__" ;;;
           raise (TypeError "Module passed is not a module.")) s) as ->.
  { destruct name; try done; by destruct module. }
  unfold bind, getattr, ret, raise.
  by destruct (lookup_attr module "__name__") as [v|] eqn:Hv.
Qed.

(** [_add_package] files a module under the explicit name when that is a
    string and under the module's [__name__] otherwise; a lookup of that
    key then gives the module, the key is new at the end or keeps its
    place, and nothing but the package mapping changes. *)
Theorem add_package_files_module (n : string) (d : gmap string object)
    (name : object) (s : state) :
  ∃ key s',
    filed_under (PyModule n d) name = Some key ∧
    _add_package (PyModule n d) name s = (Return tt, s') ∧
    dict_getitem (_packages (self s')) key = Some (PyModule n d) ∧
    names s' = see (names s) key ∧
    (∀ other, other ≠ key →
       dict_getitem (_packages (self s')) other =
       dict_getitem (_packages (self s)) other) ∧
    sys_modules s' = sys_modules s ∧ warnings s' = warnings s.
Proof.
  assert (∃ key, filed_under (PyModule n d) name = Some key ∧
                 _add_package (PyModule n d) name s =
                   (Return tt,
                    set_packages (dict_setitem (_packages (self s)) key (PyModule n d)) s))
    as (key & Hkey & Hrun).
  { destruct name; by eexists. }
  exists key. eexists. split_and!; try done.
  - simpl. apply dict_getitem_setitem.
  - unfold names. simpl. apply dict_keys_setitem.
  - intros other Hne. simpl. by apply dict_getitem_setitem_ne.
Qed.

(** What [_add_package_by_name] returns tells what it did: [True] when the
    module that [sys.modules] now holds under the name is registered under
    it, [False] when a stand-in is cached under the name and [self] is as
    before.  It raises in two cases, never touching [self] and leaving the
    state as the import left it: when the import raises anything but an
    [ImportError] it raises that error, and when the import gives what is
    neither a module nor a stand-in it raises the [TypeError] of
    [_add_package]. *)
Theorem add_package_by_name_reports (name : string) (s : state) :
  match _add_package_by_name name s with
  | (Return true, s') =>
      ∃ n d, sys_modules s' !! name = Some (PyModule n d) ∧
             dict_getitem (_packages (self s')) name = Some (PyModule n d)
  | (Return false, s') =>
      (∃ path, sys_modules s' !! name = Some (PyMock path)) ∧ self s' = self s
  | (Raise e, s') =>
      self s' = self s ∧
      ((import_module name s = (Raise e, s') ∧ is_ImportError e = false) ∨
       (∃ m, import_module name s = (Return m, s') ∧
             e = TypeError "Module passed is not a module." ∧
             isinstance_ModuleType m = false ∧ isinstance_Mock m = false))
  end.
Proof.
  unfold _add_package_by_name, bind.
  destruct (safe_import_cases s name)
    as [[Hfail Hi]|[(m & s1 & Hrun & Hi)|(e & s1 & Hrun & He & Hi)]].
  - rewrite Hi. simpl. split; [| done]. exists []. apply lookup_insert_eq.
  - pose proof (safe_import_settles _ _ _ _ Hi) as (_ & Hm & _ & Hself).
    rewrite Hi.
    destruct m as [| | | | |n d|path| |]; run;
      try (split; [done |]; right; eexists; by split_and!).
    + exists n, d. split; [done | apply dict_getitem_setitem].
    + split; [by exists path | done].
  - pose proof (safe_import_self _ _ _ _ Hi) as Hself.
    rewrite Hi. split; [done |]. by left.
Qed.

(** Whatever [add_packages] is given and however it ends, with a return
    or with an error midway, the names registered before are still there,
    first and in their order, distinct names are still distinct, and
    [ncol] and [text_width] are as they were: the registry only grows. *)
Theorem add_packages_only_grows (packages : object) (s s' : state)
    (r : outcome unit) :
  add_packages packages s = (r, s') →
  names s `prefix_of` names s' ∧
  (NoDup (names s) → NoDup (names s')) ∧
  ncol (self s') = ncol (self s) ∧
  text_width (self s') = text_width (self s).
Proof.
  intros (Hn & Hc & Hw & Hd & _ & _)%add_packages_continues. by split_and!.
Qed.

(** ** Further properties of the resolver *)

Lemma read_version_spec name module s :
  read_version name module s =
    match version_of name module with
    | Some v => (Return v, s)
    | None => (Return (PyStr "unknown"), add_warning (version_unknown name) s)
    end.
Proof.
  unfold version_of. destruct (overridden name module) as [v|] eqn:Ho.
  - by apply read_version_override.
  - destruct (lookup_attr module "__version__") as [v|] eqn:Hv.
    + by apply read_version_conventional.
    + by apply read_version_unknown.
Qed.

Lemma read_version_continues name module s r s' :
  read_version name module s = (r, s') → continues s s'.
Proof.
  rewrite read_version_spec. destruct (version_of name module);
    intros [= _ <-]; [apply continues_refl | apply continues_warning].
Qed.

Lemma get_version_registered name m s :
  dict_getitem (_packages (self s)) name = Some m →
  get_version (PyStr name) s = read_version name m s.
Proof.
  intros H. unfold get_version, bind.
  by rewrite (fetch_module_registered _ _ _ H).
Qed.

Lemma get_version_unregistered name m s s1 :
  dict_getitem (_packages (self s)) name = None →
  _safe_import_by_name name s = (Return m, s1) →
  get_version (PyStr name) s = read_version name m s1.
Proof.
  intros H Hi. unfold get_version, bind.
  by rewrite (fetch_module_unregistered _ _ _ _ H Hi).
Qed.

Lemma get_version_raised name e s s1 :
  dict_getitem (_packages (self s)) name = None →
  _safe_import_by_name name s = (Raise e, s1) →
  get_version (PyStr name) s = (Raise e, s1).
Proof.
  intros H Hi. unfold get_version, bind.
  by rewrite (fetch_module_raised _ _ _ _ H Hi).
Qed.

Lemma get_version_continues pckg s r s' :
  get_version pckg s = (r, s') → continues s s'.
Proof.
  destruct pckg as [| |name| | |n d| | |];
    try (intros [= _ <-]; apply continues_refl).
  - destruct (dict_getitem (_packages (self s)) name) as [m|] eqn:Hreg.
    + rewrite (get_version_registered _ _ _ Hreg). apply read_version_continues.
    + destruct (_safe_import_by_name name s) as [[m|e] s1] eqn:Hi.
      * rewrite (get_version_unregistered _ _ _ _ Hreg Hi). intros Hr.
        eapply continues_trans; [by eapply safe_import_continues |].
        by eapply read_version_continues.
      * rewrite (get_version_raised _ _ _ _ Hreg Hi). intros [= _ <-].
        by eapply safe_import_continues.
  - apply read_version_continues.
Qed.

(** A module that [sys.modules] holds stays there, under its name and
    unchanged, through any [add_packages] and any [get_version]: the class
    writes to the process-wide cache only where nothing was loaded. *)
Theorem loaded_modules_stay_cached (name : string) (o : object) (s : state) :
  sys_modules s !! name = Some o → o ≠ PyNone →
  (∀ packages, sys_modules (add_packages packages s).2 !! name = Some o) ∧
  (∀ pckg, sys_modules (get_version pckg s).2 !! name = Some o).
Proof.
  intros Ho Hnn. split.
  - intros packages.
    destruct (add_packages packages s) as [r s'] eqn:Hrun.
    apply add_packages_continues in Hrun as (_ & _ & _ & _ & Hm & _). by apply Hm.
  - intros pckg.
    destruct (get_version pckg s) as [r s'] eqn:Hrun.
    apply get_version_continues in Hrun as (_ & _ & _ & _ & Hm & _). by apply Hm.
Qed.

(** For a registered name [get_version] reads the registered handle and
    goes nowhere near the import system: the answer is the version the
    handle shows, or "unknown" after the one warning about the version, and
    [sys.modules] is not touched, whether or not the name could be
    imported. *)
Theorem registered_name_needs_no_import (name : string) (m : object) (s : state) :
  dict_getitem (_packages (self s)) name = Some m →
  get_version (PyStr name) s =
    match version_of name m with
    | Some v => (Return v, s)
    | None => (Return (PyStr "unknown"),
               add_warning ("Varsion attribute for `" +:+ name +:+ "` is unknown.") s)
    end.
Proof.
  intros H. rewrite (get_version_registered _ _ _ H). apply read_version_spec.
Qed.

(** Adding a module by handle and then asking for its name is the same as
    asking for the handle: same answer, same state afterwards; and adding
    by handle does not touch [sys.modules]. *)
Theorem registered_handle_round_trip (n : string) (d : gmap string object)
    (s : state) :
  ∃ s1,
    add_packages (PyList [PyModule n d]) s = (Return tt, s1) ∧
    sys_modules s1 = sys_modules s ∧
    get_version (PyStr n) s1 = get_version (PyModule n d) s1.
Proof.
  eexists. split_and!.
  - unfold add_packages. cbn [for_each]. unfold bind.
    by rewrite add_element_module.
  - done.
  - apply get_version_registered. simpl. apply dict_getitem_setitem.
Qed.

(** Asked about a module handle, [get_version] answers from the handle
    alone: the answer is the same in every state, whatever is registered
    or cached under the handle's name, and [self] and [sys.modules] are
    left as they were. *)
Theorem handle_query_ignores_state (n : string) (d : gmap string object)
    (s1 s2 : state) :
  (get_version (PyModule n d) s1).1 = (get_version (PyModule n d) s2).1 ∧
  self (get_version (PyModule n d) s1).2 = self s1 ∧
  sys_modules (get_version (PyModule n d) s1).2 = sys_modules s1.
Proof.
  change (get_version (PyModule n d) s1) with (read_version n (PyModule n d) s1).
  change (get_version (PyModule n d) s2) with (read_version n (PyModule n d) s2).
  rewrite !read_version_spec. by destruct (version_of n (PyModule n d)).
Qed.

Lemma read_version_again name module s r s' :
  read_version name module s = (r, s') →
  sys_modules s' = sys_modules s ∧ self s' = self s ∧
  ∀ s0, read_version name module s0 = (r, s0) ∨
        read_version name module s0 =
          (r, add_warning (version_unknown name) s0).
Proof.
  rewrite read_version_spec. destruct (version_of name module) as [v|] eqn:Hv;
    intros [= <- <-]; split_and!; try done; intros s0;
    rewrite read_version_spec, Hv; auto.
Qed.

(** Asking twice gives the same answer, and the second call changes the
    state by at most the warning about an unknown version: it imports
    nothing and caches nothing, so the warning about a failed import is
    logged by the first call only. *)
Theorem get_version_repeatable (pckg : object) (s : state) :
  ∃ r s',
    get_version pckg s = (r, s') ∧
    (get_version pckg s' = (r, s') ∨
     ∃ name, get_version pckg s' =
               (r, add_warning ("Varsion attribute for `" +:+ name +:+ "` is unknown.") s')).
Proof.
  destruct pckg as [| |name| | |n d| | |];
    try (eexists _, _; split; [reflexivity | by left]).
  - destruct (dict_getitem (_packages (self s)) name) as [m|] eqn:Hreg.
    + destruct (read_version name m s) as [r s'] eqn:Hr.
      exists r, s'. rewrite (get_version_registered _ _ _ Hreg). split; [done |].
      apply read_version_again in Hr as (_ & Hself & Hagain).
      rewrite <- Hself in Hreg. rewrite (get_version_registered _ _ _ Hreg).
      destruct (Hagain s') as [->| ->]; eauto.
    + destruct (_safe_import_by_name name s) as [[m|e] s1] eqn:Hi.
      * destruct (read_version name m s1) as [r s'] eqn:Hr.
        exists r, s'. rewrite (get_version_unregistered _ _ _ _ Hreg Hi).
        split; [done |].
        apply safe_import_settles in Hi as (Hacc & Hm & Hnn & Hself1).
        apply read_version_again in Hr as (Hmods & Hself & Hagain).
        rewrite <- Hself1, <- Hself in Hreg. rewrite <- Hmods in Hm.
        rewrite (get_version_unregistered _ _ _ _ Hreg
                   (safe_import_cached _ _ _ Hacc Hm Hnn)).
        destruct (Hagain s') as [->| ->]; eauto.
      * exists (Raise e), s1. rewrite (get_version_raised _ _ _ _ Hreg Hi).
        split; [done |]. left.
        pose proof (safe_import_self _ _ _ _ Hi) as Hself.
        destruct (safe_import_cases s name)
          as [[_ H]|[(m & s0 & _ & H)|(e0 & s0 & Hrun & He & H)]];
          rewrite H in Hi; try done. injection Hi as -> ->.
        apply import_module_inv in Hrun as [Hrun Hs1].
        destruct (importlib_refused _ _ _ _ Hrun He) as [Hacc Hmods].
        rewrite <- Hself in Hreg. apply (get_version_raised _ _ _ _ Hreg).
        apply safe_import_raised; [| done].
        rewrite Hmods in Hrun.
        rewrite import_module_eq, Hmods, Hrun. simpl.
        by rewrite <- Hmods, set_sys_modules_same.
  - destruct (read_version n (PyModule n d) s) as [r s'] eqn:Hr.
    exists r, s'. split; [done |].
    apply read_version_again in Hr as (_ & _ & Hagain).
    change (get_version (PyModule n d) s') with (read_version n (PyModule n d) s').
    destruct (Hagain s') as [->| ->]; eauto.
Qed.

(** Asked about a name that is not registered and not loaded but can be
    imported, [get_version] imports it: the module is in [sys.modules]
    afterwards, for the whole process, next to all that was there before,
    the answer is the one for the loaded module, and the registry still
    lacks the name. *)
Theorem unregistered_query_imports (name : string) (m : object) (s s1 : state) :
  name ∉ names s →
  sys_modules s !! name = None →
  import_module name s = (Return m, s1) →
  (∃ d, m = PyModule name d) ∧
  (get_version (PyStr name) s).1 = (get_version m s).1 ∧
  sys_modules (get_version (PyStr name) s).2 !! name = Some m ∧
  (∀ n o, sys_modules s !! n = Some o →
          sys_modules (get_version (PyStr name) s).2 !! n = Some o) ∧
  name ∉ names (get_version (PyStr name) s).2.
Proof.
  intros Hreg Hnone Hrun.
  assert (∃ d, m = PyModule name d) as [d ->].
  { apply import_module_inv in Hrun as [Hrun _].
    destruct (importlib_cases name (sys_modules s))
      as [(_ & e & _ & H)|[(_ & Hm & _)|[(_ & m0 & Hm & _)|
          (_ & _ & cached & [(d & _ & H)|(missing & _ & H)])]]];
      try congruence.
    exists d. congruence. }
  pose proof (import_module_continues _ _ _ _ Hrun) as (_ & _ & _ & _ & Hkeep & _).
  pose proof (safe_import_returned _ _ _ _ Hrun) as Hi.
  destruct (safe_import_settles _ _ _ _ Hi) as (_ & Hm & _ & Hself).
  assert (∀ n o, sys_modules s !! n = Some o → sys_modules s1 !! n = Some o) as Hall.
  { intros n o Ho. apply import_module_inv in Hrun as [Hrun _].
    by eapply importlib_keeps. }
  apply dict_getitem_None in Hreg.
  rewrite (get_version_unregistered _ _ _ _ Hreg Hi).
  change (get_version (PyModule name d) s) with (read_version name (PyModule name d) s).
  rewrite !read_version_spec. apply dict_getitem_None in Hreg.
  split; [by exists d |].
  destruct (version_of name (PyModule name d)); simpl;
    (split_and!; [done | done | done | unfold names; simpl; by rewrite Hself]).
Qed.

(** ** Further properties of the constructor *)

Lemma safety_cases x s :
  (∃ l, supplied x = Some l ∧ safety x s = (Return l, s)) ∨
  (supplied x = None ∧
   safety x s =
     (Raise (TypeError ("object of type '" +:+ type_name x +:+ "' has no len()")), s)).
Proof.
  destruct (supplied x) as [l|] eqn:Hx.
  - left. exists l. split; [done | by apply safety_supplied].
  - right. split; [done |]. by destruct x.
Qed.

(** [__init__] checks its three list arguments before it adds anything:
    when one of them is no [None], string, list or tuple, it raises the
    [TypeError] of [len], and does so with the registry empty, nothing
    imported and nothing logged, even if the arguments before the
    offending one name packages. *)
Theorem init_rejects_before_import (core optional additional : object)
    (columns width : Z) (s : state) :
  supplied core = None ∨ supplied optional = None ∨ supplied additional = None →
  ∃ msg,
    __init__ core optional additional columns width s =
      (Raise (TypeError msg),
       mkState (mkVersions columns width []) (sys_modules s) (warnings s)).
Proof.
  intros Hbad. unfold __init__, bind, init_self.
  set (s0 := mkState (mkVersions columns width []) (sys_modules s) (warnings s)).
  destruct (safety_cases core s0) as [(cs & Hc & ->)|[_ ->]]; [| by eexists].
  destruct (safety_cases optional s0) as [(os & Ho & ->)|[_ ->]]; [| by eexists].
  destruct (safety_cases additional s0) as [(adds & Ha & ->)|[_ ->]]; [| by eexists].
  destruct Hbad as [?|[?|?]]; congruence.
Qed.

(** However [__init__] ends, with a return or with an error, the registry
    it leaves is sound: it starts from empty, whatever [self] held before,
    every stored handle is a module, no name occurs twice, and [ncol] and
    [text_width] are the ones given. *)
Theorem init_leaves_sound_registry (core optional additional : object)
    (columns width : Z) (s s' : state) (r : outcome unit) :
  __init__ core optional additional columns width s = (r, s') →
  no_stub (_packages (self s')) ∧
  NoDup (names s') ∧
  ncol (self s') = columns ∧
  text_width (self s') = width.
Proof.
  unfold __init__, bind, init_self.
  set (s0 := mkState (mkVersions columns width []) (sys_modules s) (warnings s)).
  assert (∀ s1, continues s0 s1 → no_stub (_packages (self s1)) →
                no_stub (_packages (self s1)) ∧ NoDup (names s1) ∧
                ncol (self s1) = columns ∧ text_width (self s1) = width) as Hsound.
  { intros s1 (_ & Hc & Hw & Hd & _ & _) Hstub. split_and!; try done.
    apply Hd. apply NoDup_nil_2. }
  assert (no_stub (_packages (self s0))) as Hstub0 by constructor.
  destruct (safety_cases core s0) as [(cs & _ & ->)|[_ ->]];
    [| intros [= _ <-]; by apply Hsound, Hstub0; apply continues_refl].
  destruct (safety_cases optional s0) as [(os & _ & ->)|[_ ->]];
    [| intros [= _ <-]; by apply Hsound, Hstub0; apply continues_refl].
  destruct (safety_cases additional s0) as [(adds & _ & ->)|[_ ->]];
    [| intros [= _ <-]; by apply Hsound, Hstub0; apply continues_refl].
  unfold add_packages.
  destruct (for_each cs s0) as [[[]|e1] s1] eqn:H1.
  2:{ intros [= _ <-]. apply Hsound; [by eapply for_each_continues |].
      by eapply for_each_no_stub. }
  pose proof (for_each_continues _ _ _ _ H1) as Hc1.
  pose proof (for_each_no_stub _ _ _ _ Hstub0 H1) as Hs1.
  destruct (for_each os s1) as [[[]|e2] s2] eqn:H2.
  2:{ intros [= _ <-]. apply Hsound.
      - eapply continues_trans; [exact Hc1 | by eapply for_each_continues].
      - by eapply for_each_no_stub. }
  pose proof (for_each_continues _ _ _ _ H2) as Hc2.
  pose proof (for_each_no_stub _ _ _ _ Hs1 H2) as Hs2.
  intros H3. apply Hsound.
  - eapply continues_trans; [exact Hc1 |].
    eapply continues_trans; [exact Hc2 | by eapply for_each_continues].
  - by eapply for_each_no_stub.
Qed.

(** ** The plain-text report *)

Ltac rrun :=
  unfold rbind, rret, rraise, call, pure, get_text_width, get_ncol,
    packages_keys, platform, cpu_count; simpl.

Lemma dict_getitem_elem_of (d : pydict) k v :
  NoDup (dict_keys d) → (k, v) ∈ d → dict_getitem d k = Some v.
Proof.
  unfold dict_keys. induction d as [|[k' v'] d IH]; csimpl.
  - by intros _ ?%elem_of_nil.
  - intros [Hk Hd]%NoDup_cons [[= -> ->]|Hin]%elem_of_cons.
    + by rewrite decide_True.
    + rewrite decide_False; [by apply IH |].
      intros ->. apply Hk. apply list_elem_of_fmap. by exists (k', v).
Qed.

Lemma only_logs_refl s : only_logs s s.
Proof. by split_and!. Qed.

Lemma only_logs_trans s1 s2 s3 :
  only_logs s1 s2 → only_logs s2 s3 → only_logs s1 s3.
Proof.
  intros (H1 & H2 & H3) (H1' & H2' & H3'). split_and!; [congruence.. | by etrans].
Qed.

Lemma only_logs_log_one kv s : only_logs s (log_one kv s).
Proof.
  unfold log_one. destruct (version_of kv.1 kv.2); [apply only_logs_refl |].
  split_and!; try done. simpl. by apply prefix_app_r.
Qed.

(** [get_version] on the name of a registered pair. *)
Lemma call_get_version_registered k v s :
  dict_getitem (_packages (self s)) k = Some v →
  call (get_version (PyStr k)) s = (Returns (shown (k, v)), log_one (k, v) s).
Proof.
  intros H. unfold call. rewrite (get_version_registered _ _ _ H), read_version_spec.
  unfold shown, log_one. simpl. by destruct (version_of k v).
Qed.

Lemma repr_rows_returns (ps : pydict) cells text s :
  (∀ k v, (k, v) ∈ ps → dict_getitem (_packages (self s)) k = Some v) →
  cells_of format_right ps = Return cells →
  repr_rows ps.*1 text s = (Returns (text +:+ rows_text cells), logged ps s).
Proof.
  revert cells text s. induction ps as [|[k v] ps IH]; intros cells text s Hreg; csimpl.
  - intros [= <-]. rrun. by rewrite append_empty.
  - destruct (format_right (shown (k, v))) as [t|e] eqn:Ht; [| done].
    destruct (cells_of format_right ps) as [cs|e] eqn:Hcs; [| done].
    intros [= <-]. unfold repr_row, rbind at 1 2.
    rewrite (call_get_version_registered k v s) by (apply Hreg; by left).
    unfold rbind, pure, rret. rewrite Ht. cbn [of_outcome].
    rewrite (IH cs _ (log_one (k, v) s)); [| | done].
    + cbn [rows_text]. by rewrite append_assoc.
    + intros k' v' Hin.
      destruct (only_logs_log_one (k, v) s) as (-> & _ & _).
      apply Hreg. by right.
Qed.

Lemma repr_rows_raises (ps : pydict) e text s :
  (∀ k v, (k, v) ∈ ps → dict_getitem (_packages (self s)) k = Some v) →
  cells_of format_right ps = Raise e →
  ∃ s', repr_rows ps.*1 text s = (Raises (Python e), s').
Proof.
  revert text s. induction ps as [|[k v] ps IH]; intros text s Hreg; csimpl; [done |].
  unfold repr_row, rbind at 1 2.
  rewrite (call_get_version_registered k v s) by (apply Hreg; by left).
  unfold rbind, pure, rret.
  destruct (format_right (shown (k, v))) as [t|e'] eqn:Ht; cbn [of_outcome].
  - destruct (cells_of format_right ps) as [cs|e'] eqn:Hcs; [done |].
    intros [= ->]. apply IH; [| done].
    intros k' v' Hin.
    destruct (only_logs_log_one (k, v) s) as (-> & _ & _).
    apply Hreg. by right.
  - intros [= ->]. by eexists.
Qed.

Lemma only_logs_logged (d : pydict) s : only_logs s (logged d s).
Proof.
  unfold logged. revert s. induction d as [|kv d IH]; intros s;
    [apply only_logs_refl |].
  simpl. eapply only_logs_trans; [apply only_logs_log_one | apply IH].
Qed.

Lemma sys_version_state s : (sys_version s).2 = s.
Proof. unfold sys_version. by destruct (textwrap_wrap _ _). Qed.

Lemma wrapped_block text lines : wrapped text lines = text +:+ block lines.
Proof. apply sys_version_loop. Qed.

Lemma cells_of_unprintable (d : pydict) :
  Exists (λ kv, printable (shown kv) = false) d →
  ∃ msg, cells_of format_right d = Raise (TypeError msg).
Proof.
  induction 1 as [kv d Hkv|kv d _ [msg IH]]; simpl.
  - destruct (shown kv); try done; by eexists.
  - destruct (format_right (shown kv)) as [t|e] eqn:Ht.
    + rewrite IH. by eexists.
    + destruct (shown kv); try done; injection Ht as <-; by eexists.
Qed.

Lemma registered_pairs s :
  NoDup (names s) →
  ∀ k v, (k, v) ∈ _packages (self s) →
         dict_getitem (_packages (self s)) k = Some v.
Proof. intros Hnd k v. by apply dict_getitem_elem_of. Qed.

(** When the CPUs can be counted, every registered component shows a
    string, an integer or a float for a version, and the two wraps return,
    [__repr__] returns: a rule of [text_width] dashes, the time, the OS
    and CPU lines, one line for each registered component in the order of
    registration with the version behind as many blanks as it lacks to
    fifteen characters, the block of [sys.version], the block of [mklinfo]
    if there is one, and the rule again; and it has logged one warning for
    each component that shows no version, nothing else being changed. *)
Theorem repr_reports_each_component (s : state) (cpus : Z)
    (cells : list (string * string)) (lines : list string) (mkl : string) :
  NoDup (names s) →
  multiprocessing_cpu_count = Some cpus →
  cells_of format_right (_packages (self s)) = Return cells →
  textwrap_wrap sys_version_string (text_width (self s) - 4) = Return lines →
  mkl_text (text_width (self s)) = Return mkl →
  __repr__ s =
    (Returns
       (LF +:+ times (text_width (self s)) "-" +:+ LF +:+
        time_strftime ("  %a %b %d %H:%M:%S %Y %Z" +:+ LF +:+ LF) +:+
        (rjust 15 platform_system +:+ " : OS" +:+ LF) +:+
        (rjust 15 (pretty cpus) +:+ " : CPU(s)" +:+ LF) +:+
        rows_text cells +:+
        (LF +:+ block lines) +:+
        mkl +:+
        times (text_width (self s)) "-"),
     logged (_packages (self s)) s) ∧
  length cells = length (names s) ∧
  cells.*2 = names s.
Proof.
  intros Hnd Hcpu Hcells Hwrap Hmkl.
  destruct (only_logs_logged (_packages (self s)) s) as (Hself & _ & _).
  split.
  - unfold __repr__. rrun. rewrite Hcpu. rrun.
    unfold names, dict_keys.
    rewrite (repr_rows_returns _ cells _ s (registered_pairs s Hnd) Hcells).
    unfold sys_version. rewrite Hself, Hwrap. simpl.
    unfold mkl_text in Hmkl. destruct (truthy mklinfo).
    + simpl. rewrite Hself.
      destruct (textwrap_wrap (default "" mklinfo) (text_width (self s) - 4))
        as [mlines|e]; [| done].
      injection Hmkl as <-. simpl. rewrite Hself.
      rewrite wrapped_block, (sys_version_loop lines LF).
      by rewrite !append_assoc.
    + injection Hmkl as <-. simpl. rewrite Hself.
      rewrite (sys_version_loop lines LF).
      by rewrite !append_assoc.
  - clear -Hcells. unfold names, dict_keys.
    revert cells Hcells. induction (_packages (self s)) as [|kv d IH];
      intros cells; simpl.
    + by intros [= <-].
    + destruct (format_right (shown kv)); [| done].
      destruct (cells_of format_right d) as [cs|]; [| done].
      intros [= <-]. destruct (IH cs eq_refl) as [IH1 IH2].
      csimpl. by rewrite IH1, IH2.
Qed.

Lemma registered_name s k :
  k ∈ names s → ∃ m, dict_getitem (_packages (self s)) k = Some m.
Proof.
  intros Hin. destruct (dict_getitem (_packages (self s)) k) as [m|] eqn:H;
    [by exists m |].
  by apply dict_getitem_None in H.
Qed.

Lemma repr_rows_only_logs ks text s r s' :
  (∀ k, k ∈ ks → k ∈ names s) →
  repr_rows ks text s = (r, s') → only_logs s s'.
Proof.
  revert text s. induction ks as [|k ks IH]; intros text s Hks; simpl.
  - intros [= _ <-]. apply only_logs_refl.
  - destruct (registered_name s k) as [m Hm]; [apply Hks; by left |].
    unfold repr_row, rbind at 1 2. rewrite (call_get_version_registered k m s Hm).
    pose proof (only_logs_log_one (k, m) s) as Hlog.
    unfold rbind, pure, rret.
    destruct (format_right (shown (k, m))); cbn [of_outcome].
    + intros Hrest. eapply only_logs_trans; [exact Hlog |].
      eapply IH; [| exact Hrest].
      intros k' Hk'. unfold names. destruct Hlog as (-> & _ & _).
      apply Hks. by right.
    + by intros [= _ <-].
Qed.

(** When the CPUs can be counted and some registered component shows a
    version whose class has no [__format__] of its own ([None], a list, a
    tuple, a module, a stand-in, a function), [__repr__] raises the
    [TypeError] with which [object.__format__] refuses the format
    specification; a string, an integer and a float are printed. *)
Theorem repr_refuses_unprintable_version (s : state) (cpus : Z) :
  NoDup (names s) →
  multiprocessing_cpu_count = Some cpus →
  Exists (λ kv, printable (shown kv) = false) (_packages (self s)) →
  ∃ msg s', __repr__ s = (Raises (Python (TypeError msg)), s').
Proof.
  intros Hnd Hcpu [msg Hbad]%cells_of_unprintable.
  exists msg. unfold __repr__. rrun. rewrite Hcpu. rrun.
  unfold names, dict_keys.
  match goal with
  | |- context [repr_rows _ ?text s] =>
      destruct (repr_rows_raises _ _ text s (registered_pairs s Hnd) Hbad)
        as [s' ->]
  end.
  by exists s'.
Qed.

(** When the host cannot count its CPUs, both renderers raise the
    [NotImplementedError] of [multiprocessing.cpu_count()] as it is, before
    any version is resolved: the state is untouched. *)
Theorem renderers_need_cpu_count (s : state) :
  multiprocessing_cpu_count = None →
  __repr__ s = (Raises NotImplementedError, s) ∧
  _repr_html_ s = (Raises NotImplementedError, s).
Proof.
  intros Hcpu. split.
  - unfold __repr__. rrun. by rewrite Hcpu.
  - unfold _repr_html_. rrun. unfold cols. simpl. by rewrite Hcpu.
Qed.

(** ** The table *)

Ltac rstart :=
  unfold rbind, get_ncol, get_text_width, platform, cpu_count, pure,
    packages_keys, rret, rraise; cbv beta iota zeta; cbn [fst snd].

Lemma append_nil_l (a : string) : "" +:+ a = a.
Proof. done. Qed.

Lemma colspan_append html txt ncol nrow :
  colspan html txt ncol nrow = html +:+ colspan_row txt ncol nrow.
Proof.
  unfold colspan_row, colspan.
  destruct (nrow =? 0)%Z; [| destruct (nrow `mod` 2 =? 0)%Z];
    by rewrite !append_assoc, !append_nil_l.
Qed.

Lemma cols_returns html version v name ncol i :
  percent_s version = Return v →
  ncol ≠ 0%Z ∨ (i ≤ 0)%Z →
  cols html version name ncol i =
    Returns (html +:+ cell_html ncol i v name, (i + 1)%Z).
Proof.
  intros Hv Hok. unfold cols, cell_html. rewrite Hv.
  destruct (0 <? i)%Z eqn:Hi; simpl.
  - destruct (ncol =? 0)%Z eqn:Hn; [lia |].
    destruct (i `mod` ncol =? 0)%Z;
      by rewrite !append_assoc, ?append_nil_l.
  - by rewrite !append_assoc, ?append_nil_l.
Qed.

Lemma html_cells_returns (ps : pydict) cells html i s :
  (∀ k v, (k, v) ∈ ps → dict_getitem (_packages (self s)) k = Some v) →
  ncol (self s) ≠ 0%Z →
  cells_of percent_s ps = Return cells →
  html_cells ps.*1 html i s =
    (Returns (html +:+ cells_html (ncol (self s)) i cells,
              (i + Z.of_nat (length ps))%Z),
     logged ps s).
Proof.
  revert cells html i s.
  induction ps as [|[k v] ps IH]; intros cells html i s Hreg Hn; csimpl.
  - intros [= <-]. rrun. rewrite append_empty. do 3 f_equal. lia.
  - destruct (percent_s (shown (k, v))) as [t|e] eqn:Ht; [| done].
    destruct (cells_of percent_s ps) as [cs|e] eqn:Hcs; [| done].
    intros [= <-]. unfold rbind at 1.
    rewrite (call_get_version_registered k v s) by (apply Hreg; by left).
    destruct (only_logs_log_one (k, v) s) as (Hself & _ & _).
    unfold rbind, get_ncol, pure. rewrite Hself.
    rewrite (cols_returns _ _ t _ _ _ Ht) by (by left). cbn [fst snd].
    rewrite (IH cs _ _ (log_one (k, v) s)); [| | by rewrite Hself | done].
    + rewrite Hself. cbn [cells_html]. rewrite append_assoc.
      do 3 f_equal. lia.
    + intros k' v' Hin. rewrite Hself. apply Hreg. by right.
Qed.

Lemma html_cells_only_logs ks html i s r s' :
  (∀ k, k ∈ ks → k ∈ names s) →
  html_cells ks html i s = (r, s') → only_logs s s'.
Proof.
  revert html i s. induction ks as [|k ks IH]; intros html i s Hks; simpl.
  - intros [= _ <-]. apply only_logs_refl.
  - destruct (registered_name s k) as [m Hm]; [apply Hks; by left |].
    unfold rbind at 1. rewrite (call_get_version_registered k m s Hm).
    pose proof (only_logs_log_one (k, m) s) as Hlog.
    unfold rbind, get_ncol, pure.
    destruct (cols html (shown (k, m)) k (ncol (self (log_one (k, m) s))) i)
      as [[html' i']|e].
    + intros Hrest. eapply only_logs_trans; [exact Hlog |].
      eapply IH; [| exact Hrest].
      intros k' Hk'. unfold names. destruct Hlog as (-> & _ & _).
      apply Hks. by right.
    + by intros [= _ <-].
Qed.

Lemma mod_zero_abs_opp (n i : Z) :
  n ≠ 0%Z → (i `mod` n = 0 ↔ (- i) `mod` Z.abs n = 0)%Z.
Proof.
  intros Hn. rewrite Z.mod_divide by done.
  rewrite Z.mod_divide by lia.
  by rewrite Z.divide_abs_l, Z.divide_opp_r.
Qed.

Lemma mod_opp_succ (m i : Z) :
  (0 < m)%Z → ((- i) `mod` m)%Z ≠ 0%Z →
  ((- (i + 1)) `mod` m = (- i) `mod` m - 1)%Z.
Proof.
  intros Hm Hr. symmetry. apply (Z.mod_unique_pos _ _ ((- i) `div` m)%Z).
  - pose proof (Z.mod_pos_bound (- i) m Hm). lia.
  - pose proof (Z.div_mod (- i) m). lia.
Qed.

Lemma padding_bound n i : n ≠ 0%Z → (padding n i < Z.abs_nat n)%nat.
Proof.
  intros Hn. unfold padding.
  pose proof (Z.mod_pos_bound (- i) (Z.abs n)). lia.
Qed.

(** The filling loop stops by itself within the rounds it is given: it
    appends [padding] pairs of empty cells and leaves a count that the
    column count divides. *)
Lemma fill_up_spec rounds n html i :
  n ≠ 0%Z → (padding n i ≤ rounds)%nat →
  fill_up rounds n html i =
    (html +:+ repeat_string (padding n i) (empty_cell +:+ empty_cell),
     (i + Z.of_nat (padding n i))%Z) ∧
  ((i + Z.of_nat (padding n i)) `mod` n = 0)%Z.
Proof.
  intros Hn. revert html i. induction rounds as [|rounds IH]; intros html i Hle.
  - assert (padding n i = 0%nat) as Hp by lia. rewrite Hp. simpl.
    rewrite append_empty, Z.add_0_r. split; [done |].
    apply mod_zero_abs_opp; [done |]. unfold padding in Hp.
    pose proof (Z.mod_pos_bound (- i) (Z.abs n)). lia.
  - cbn [fill_up]. destruct (i `mod` n =? 0)%Z eqn:Hi.
    + apply Z.eqb_eq in Hi. pose proof Hi as Hi'.
      apply mod_zero_abs_opp in Hi'; [| done].
      unfold padding. rewrite Hi'. simpl.
      by rewrite append_empty, Z.add_0_r.
    + apply Z.eqb_neq in Hi.
      assert (((- i) `mod` Z.abs n)%Z ≠ 0%Z) as Hr
        by (by rewrite <- mod_zero_abs_opp).
      assert (padding n i = S (padding n (i + 1))) as Hp.
      { unfold padding. rewrite mod_opp_succ by (done || lia).
        pose proof (Z.mod_pos_bound (- i) (Z.abs n)). lia. }
      destruct (IH ((html +:+ empty_cell) +:+ empty_cell) (i + 1)%Z) as [-> Hz];
        [lia |].
      rewrite Hp. cbn [repeat_string]. split.
      * f_equal; [by rewrite !append_assoc | lia].
      * rewrite <- Hz. f_equal. lia.
Qed.

Lemma html_cells_raises (ps : pydict) e html i s :
  (∀ k v, (k, v) ∈ ps → dict_getitem (_packages (self s)) k = Some v) →
  ncol (self s) ≠ 0%Z →
  cells_of percent_s ps = Raise e →
  ∃ s', html_cells ps.*1 html i s = (Raises (Python e), s').
Proof.
  revert html i s. induction ps as [|[k v] ps IH]; intros html i s Hreg Hn;
    csimpl; [done |].
  unfold rbind at 1.
  rewrite (call_get_version_registered k v s) by (apply Hreg; by left).
  destruct (only_logs_log_one (k, v) s) as (Hself & _ & _).
  unfold rbind, get_ncol, pure. rewrite Hself.
  destruct (percent_s (shown (k, v))) as [t|e'] eqn:Ht.
  - rewrite (cols_returns _ _ t _ _ _ Ht) by (by left). cbn [fst snd].
    destruct (cells_of percent_s ps) as [cs|e'] eqn:Hcs; [done |].
    intros [= ->]. apply IH; [| by rewrite Hself | done].
    intros k' v' Hin. rewrite Hself. apply Hreg. by right.
  - intros [= ->]. unfold cols. rewrite Ht.
    destruct (0 <? i)%Z; [| by eexists].
    destruct (ncol (self s) =? 0)%Z eqn:Hz; [lia | by eexists].
Qed.

(** With a column count that is not zero, the CPUs counted and every
    registered version printable by [%s], [_repr_html_] returns the table:
    the title row, then the pairs for the OS, the CPUs and each registered
    component in the order of registration, a new row before every pair
    whose number the column count divides, then as many empty pairs as it
    takes to make the number of pairs a multiple of the column count,
    fewer than the column count, then the rows of [sys.version] and of
    [mklinfo]; one warning is logged for each component that shows no
    version. *)
Theorem html_fills_last_row (s : state) (cpus : Z)
    (cells : list (string * string)) :
  NoDup (names s) →
  ncol (self s) ≠ 0%Z →
  multiprocessing_cpu_count = Some cpus →
  cells_of percent_s (_packages (self s)) = Return cells →
  _repr_html_ s =
    (Returns
       (("<table style='border: 3px solid #ddd;'>" +:+ LF) +:+
        colspan_row (time_strftime "%a %b %d %H:%M:%S %Y %Z") (ncol (self s)) 0 +:+
        ("  <tr>" +:+ LF) +:+
        cells_html (ncol (self s)) 0
          ((platform_system, "OS") :: (pretty cpus, "CPU(s)") :: cells) +:+
        repeat_string (padding (ncol (self s)) (2 + Z.of_nat (length (names s))))
          (empty_cell +:+ empty_cell) +:+
        ("  </tr>" +:+ LF) +:+
        colspan_row sys_version_string (ncol (self s)) 1 +:+
        (if truthy mklinfo
         then colspan_row (default "" mklinfo) (ncol (self s)) 2 else "") +:+
        "</table>"),
     logged (_packages (self s)) s) ∧
  ((2 + Z.of_nat (length (names s)) +
    Z.of_nat (padding (ncol (self s)) (2 + Z.of_nat (length (names s)))))
   `mod` ncol (self s) = 0)%Z ∧
  (padding (ncol (self s)) (2 + Z.of_nat (length (names s)))
   < Z.abs_nat (ncol (self s)))%nat.
Proof.
  intros Hnd Hn Hcpu Hcells.
  destruct (only_logs_logged (_packages (self s)) s) as (Hself & _ & _).
  set (n := ncol (self s)) in *.
  set (i := (2 + Z.of_nat (length (names s)))%Z).
  pose proof (padding_bound n i Hn) as Hbound.
  split_and!; [| by apply (fill_up_spec (Z.abs_nat n) n "" i Hn); lia | done].
  unfold _repr_html_. rstart. fold n. rewrite Hcpu. rstart.
  rewrite (cols_returns _ (PyStr platform_system) platform_system)
    by (done || by left).
  rstart.
  rewrite (cols_returns _ (PyInt cpus) (pretty cpus)) by (done || by left).
  rstart. unfold names, dict_keys.
  rewrite (html_cells_returns _ cells _ _ s (registered_pairs s Hnd) Hn Hcells).
  rewrite Hself. fold n. rstart.
  destruct (n =? 0)%Z eqn:Hz; [lia |]. rstart.
  replace (0 + 1 + 1 + Z.of_nat (length (_packages (self s))))%Z with i.
  2:{ unfold i, names, dict_keys. rewrite length_fmap. lia. }
  match goal with
  | |- context [fill_up (Z.abs_nat n) n ?h i] =>
      destruct (fill_up_spec (Z.abs_nat n) n h i Hn) as [-> _]; [lia |]
  end.
  cbn [fst snd cells_html]. rewrite !colspan_append.
  destruct (truthy mklinfo); rewrite ?colspan_append, Hself, !append_assoc;
    fold n; by rewrite ?append_empty.
Qed.

(** With a column count of zero, which the constructor accepts,
    [_repr_html_] cannot return: once the CPUs are counted, the second
    pair of cells raises the [ZeroDivisionError] of [i % ncol], before any
    version is resolved. *)
Theorem html_needs_columns (s : state) (cpus : Z) :
  ncol (self s) = 0%Z →
  multiprocessing_cpu_count = Some cpus →
  _repr_html_ s = (Raises ZeroDivisionError, s).
Proof.
  intros Hn Hcpu.
  unfold _repr_html_. rstart. rewrite Hn.
  rewrite (cols_returns _ (PyStr platform_system) platform_system)
    by (done || by right).
  rstart. rewrite Hcpu. rstart. unfold cols. by rewrite Hn.
Qed.

(** With a column count that is not zero and the CPUs counted,
    [_repr_html_] raises the [TypeError] of the [%] operator when some
    registered component shows a tuple for a version that has not exactly
    one element. *)
Theorem html_refuses_tuple_version (s : state) (cpus : Z) :
  NoDup (names s) →
  ncol (self s) ≠ 0%Z →
  multiprocessing_cpu_count = Some cpus →
  Exists (λ kv, ∃ items, shown kv = PyTuple items ∧ length items ≠ 1%nat)
    (_packages (self s)) →
  ∃ msg s', _repr_html_ s = (Raises (Python (TypeError msg)), s').
Proof.
  intros Hnd Hn Hcpu Hbad.
  assert (∃ msg, cells_of percent_s (_packages (self s)) = Raise (TypeError msg))
    as [msg Hcells].
  { clear -Hbad. induction Hbad as [kv d (items & Hkv & Hlen)|kv d _ [msg IH]];
      simpl.
    - rewrite Hkv. destruct items as [|? [|? ?]]; try done; by eexists.
    - destruct (percent_s (shown kv)) as [t|e] eqn:Ht.
      + rewrite IH. by eexists.
      + destruct (shown kv) as [| | | |[|? [|? ?]]| | | |]; try done;
          injection Ht as <-; by eexists. }
  exists msg.
  unfold _repr_html_. rstart. rewrite Hcpu. rstart.
  rewrite (cols_returns _ (PyStr platform_system) platform_system)
    by (done || by left).
  rstart.
  rewrite (cols_returns _ (PyInt cpus) (pretty cpus)) by (done || by left).
  rstart. unfold names, dict_keys.
  match goal with
  | |- context [html_cells _ ?html ?i s] =>
      destruct (html_cells_raises _ _ html i s (registered_pairs s Hnd) Hn Hcells)
        as [s' ->]
  end.
  by exists s'.
Qed.

(** Rendering resolves nothing anew: however [__repr__] and
    [_repr_html_] end, [self] and [sys.modules] are as before, and the log
    has only grown. *)
Theorem rendering_only_logs (s : state) :
  only_logs s (__repr__ s).2 ∧ only_logs s (_repr_html_ s).2.
Proof.
  split.
  - unfold __repr__. rstart.
    destruct multiprocessing_cpu_count as [cpus|]; [| apply only_logs_refl].
    rstart.
    match goal with
    | |- context [repr_rows (names s) ?text s] =>
        destruct (repr_rows (names s) text s) as [[text'|e] s1] eqn:Hrows
    end; apply repr_rows_only_logs in Hrows; try done.
    unfold call. pose proof (sys_version_state s1) as Hsv.
    destruct (sys_version s1) as [[v|e] s2]; simpl in Hsv; subst s2;
      cbn [of_outcome]; [| done].
    destruct (truthy mklinfo); unfold rbind, pure, rret; [| done].
    by destruct (of_outcome (textwrap_wrap _ _)).
  - unfold _repr_html_. rstart.
    destruct (cols _ (PyStr platform_system) "OS" _ 0) as [[h1 i1]|e];
      [| apply only_logs_refl].
    destruct multiprocessing_cpu_count as [cpus|]; [| apply only_logs_refl].
    rstart.
    destruct (cols _ (PyInt cpus) "CPU(s)" _ _) as [[h2 i2]|e];
      [| apply only_logs_refl].
    rstart.
    destruct (html_cells (names s) h2 i2 s) as [[[h3 i3]|e] s1] eqn:Hcells;
      apply html_cells_only_logs in Hcells; try done.
    rstart. destruct (ncol (self s1) =? 0)%Z; rstart; [done |].
    by destruct (truthy mklinfo).
Qed.


End Host.

(** ** Examples on the sample host *)

Example construct_numericlib :
  __init__ builtin_getattr sample_loader
    (PyList [PyStr "numericlib"]) (PyList []) (PyList []) 4 54 fresh
  = (Return tt, loaded).
Proof. vm_compute. reflexivity. Qed.

Example version_numericlib :
  get_version knowledge builtin_getattr sample_loader (PyStr "numericlib") loaded
  = (Return (PyStr "2.1.0"), loaded).
Proof. vm_compute. reflexivity. Qed.

Example construct_with_missing :
  __init__ builtin_getattr sample_loader
    PyNone PyNone (PyList [PyStr "missing_component"]) 4 54 fresh
  = (Return tt, mocked sample_loader "missing_component" fresh).
Proof. vm_compute. reflexivity. Qed.

(** The empty name and a relative name are refused by [importlib] itself,
    with errors that [_safe_import_by_name] does not catch. *)
Example import_refuses_names :
  import_module sample_loader "" fresh = (Raise (ValueError "Empty module name"), fresh) ∧
  import_module sample_loader ".rel" fresh =
    (Raise (TypeError
       "the 'package' argument is required to perform a relative import for '.rel'"),
     fresh).
Proof. vm_compute. done. Qed.

(** The import of a submodule caches the package it lies in, also when the
    submodule is not found. *)
Example import_caches_parent :
  sys_modules (import_module sample_loader "numericlib.missing" fresh).2 !! "numericlib"
    = Some numericlib ∧
  sys_modules (add_packages builtin_getattr sample_loader
                 (PyList [PyStr "numericlib.missing"]) fresh).2
    = <[ "numericlib.missing" := mock_Mock ]> {[ "numericlib" := numericlib ]}.
Proof. vm_compute. done. Qed.

(** [plotlib] imports a [backend] that is not installed: it resolves once
    a stand-in for [backend] is cached, and not before. *)
Example order_matters :
  names (__init__ builtin_getattr sample_loader
           (PyList [PyStr "backend"; PyStr "plotlib"]) PyNone PyNone 4 54 fresh).2
    = ["plotlib"] ∧
  names (__init__ builtin_getattr sample_loader
           (PyList [PyStr "plotlib"; PyStr "backend"]) PyNone PyNone 4 54 fresh).2
    = [].
Proof. vm_compute. done. Qed.

(** The empty name before the integer 42: the [ValueError] of the import
    comes first. *)
Example empty_name_before_invalid :
  add_packages builtin_getattr sample_loader (PyList [PyStr ""; PyInt 42]) fresh
  = (Raise (ValueError "Empty module name"), fresh).
Proof. vm_compute. reflexivity. Qed.

Example first_occurrences_keeps_order :
  first_occurrences ["scipy"; "numpy"; "scipy"; "vtk"; "numpy"] = ["scipy"; "numpy"; "vtk"].
Proof. vm_compute. reflexivity. Qed.

Example overwrite_keeps_slot :
  dict_setitem [("numericlib", numericlib); ("bare", bare)] "numericlib" vtk
  = [("numericlib", vtk); ("bare", bare)].
Proof. vm_compute. reflexivity. Qed.

Example dunder_names :
  _is_magic "__version__" = true ∧ _is_magic "VTK_VERSION" = false ∧
  _is_magic "__" = false.
Proof. vm_compute. done. Qed.

(** What a stand-in answers on the sample host. *)
Example stand_in_attributes :
  lookup_attr builtin_getattr mock_Mock "VTK_VERSION" = Some (PyMock ["VTK_VERSION"]) ∧
  lookup_attr builtin_getattr mock_Mock "__version__" = None ∧
  lookup_attr builtin_getattr mock_Mock "__name__" = None ∧
  lookup_attr builtin_getattr mock_Mock "assert_version" = None ∧
  lookup_attr builtin_getattr mock_Mock "call_count" = Some (PyInt 0).
Proof. vm_compute. done. Qed.

Example characters_not_bytes :
  characters "1.0β" = 4 ∧ String.length "1.0β" = 5 ∧
  list_of_str "1.0β" = ["1"; "."; "0"; "β"].
Proof. vm_compute. done. Qed.

Example too_narrow :
  sys_version runtime greedy_wrap (mkState (mkVersions 4 4 []) ∅ [])
  = (Raise (ValueError "invalid width (must be > 0)"),
     mkState (mkVersions 4 4 []) ∅ []).
Proof. vm_compute. reflexivity. Qed.

Example runtime_block :
  greedy_wrap runtime 26 = Return ["3.7.3 (default, Mar 27"; "2019, 22:11:17) [GCC"; "7.3.0]"].
Proof. vm_compute. reflexivity. Qed.

(** C1 as stated fails at the empty name: it is a string, the table does
    not list it, and [get_version] neither returns a version of a handle
    nor the string "unknown": it raises the [ValueError] of the import, and
    logs nothing. *)
Lemma get_version_empty_name_raises :
  name_or_handle (PyStr "") = true ∧
  ("" ∉ names fresh) ∧
  knowledge !! "" = None ∧
  get_version knowledge builtin_getattr sample_loader (PyStr "") fresh =
    (Raise (ValueError "Empty module name"), fresh) ∧
  ¬ ∃ v s', get_version knowledge builtin_getattr sample_loader (PyStr "") fresh =
              (Return v, s').
Proof.
  split_and!; try (vm_compute; reflexivity).
  - apply not_elem_of_nil.
  - intros (v & s' & H). vm_compute in H. discriminate H.
Qed.

(** The handle [vtk] has both attributes, and the table names
    [VTK_VERSION] for it: that one is returned. *)
Lemma get_version_fallback_order_witness :
  name_or_handle vtk = true ∧
  overridden knowledge builtin_getattr "vtk" vtk = Some (PyStr "8.1.2") ∧
  lookup_attr builtin_getattr vtk "__version__" = Some (PyStr "8.1") ∧
  get_version knowledge builtin_getattr sample_loader vtk fresh =
    (Return (PyStr "8.1.2"), fresh).
Proof.
  split_and!; [reflexivity | reflexivity | reflexivity |].
  pose proof (get_version_fallback_order knowledge builtin_getattr sample_loader
                vtk fresh eq_refl) as H.
  change (fetch_module sample_loader vtk fresh) with (Return ("vtk", vtk), fresh) in H.
  destruct H as (_ & Hfirst & _).
  apply Hfirst. reflexivity.
Defined.

(** C3 as stated fails at the empty name: its import fails, and the
    element raises, so that [bare] behind it is never added. *)
Lemma empty_name_aborts_add_packages :
  import_module sample_loader "" fresh =
    (Raise (ValueError "Empty module name"), fresh) ∧
  add_packages builtin_getattr sample_loader (PyList [PyStr ""; bare]) fresh =
    (Raise (ValueError "Empty module name"), fresh) ∧
  add_packages builtin_getattr sample_loader (PyList [bare]) fresh =
    (Return tt, mkState (mkVersions 4 54 [("bare", bare)]) ∅ []) ∧
  warnings (add_packages builtin_getattr sample_loader
              (PyList [PyStr ""; bare]) fresh).2 = [].
Proof. vm_compute. done. Qed.

(** After [numericlib], a name that cannot be imported is passed over and
    the module behind it is still added. *)
Lemma failed_import_is_skipped_witness :
  add_packages builtin_getattr sample_loader (PyList [PyStr "numericlib"]) fresh =
    (Return tt, loaded) ∧
  import_fails sample_loader loaded "missing_component" = true ∧
  ∃ s2,
    add_element builtin_getattr sample_loader (PyStr "missing_component") loaded =
      (Return tt, s2) ∧
    self s2 = self loaded ∧
    ("missing_component" ∉ names loaded → "missing_component" ∉ names s2) ∧
    warnings s2 = warnings loaded ++
      ["Could not import module `" +:+ "missing_component" +:+ "`. This will be mocked."] ∧
    add_packages builtin_getattr sample_loader
      (PyList ([PyStr "numericlib"] ++ PyStr "missing_component" :: [bare])) fresh =
      add_packages builtin_getattr sample_loader (PyList [bare]) s2.
Proof.
  assert (add_packages builtin_getattr sample_loader (PyList [PyStr "numericlib"]) fresh =
            (Return tt, loaded)) as Hpre by (vm_compute; reflexivity).
  split_and!; [exact Hpre | vm_compute; reflexivity |].
  destruct (failed_import_is_skipped builtin_getattr sample_loader
              [PyStr "numericlib"] [bare] "missing_component" fresh loaded Hpre)
    as [Hskip _].
  apply Hskip. vm_compute; reflexivity.
Defined.

(** The integer 42 behind [numericlib]: the call raises, and [numericlib]
    stays registered. *)
Lemma add_packages_not_atomic_witness :
  add_packages builtin_getattr sample_loader (PyList [PyStr "numericlib"]) fresh =
    (Return tt, loaded) ∧
  valid_element (PyInt 42) = false ∧
  add_packages builtin_getattr sample_loader
    (PyList [PyStr "numericlib"; PyInt 42; bare]) fresh =
    (Raise (TypeError "Cannot add package from type (<class 'int'>)"), loaded).
Proof.
  split_and!; [vm_compute; reflexivity | reflexivity |].
  apply (add_packages_not_atomic builtin_getattr sample_loader
           [PyStr "numericlib"] [bare] (PyInt 42) fresh loaded);
    [vm_compute; reflexivity | reflexivity].
Defined.

(** A list with the integer 42 in it raises. *)
Lemma invalid_element_raises_witness :
  Exists (λ x, valid_element x = false) [PyNone; PyInt 42] ∧
  ∃ e s',
    add_packages builtin_getattr sample_loader (PyList [PyNone; PyInt 42]) fresh =
      (Raise e, s').
Proof.
  assert (Exists (λ x, valid_element x = false) [PyNone; PyInt 42]) as H.
  { apply Exists_cons_tl, Exists_cons_hd. reflexivity. }
  split; [exact H |].
  apply (invalid_element_raises builtin_getattr sample_loader [PyNone; PyInt 42] fresh).
  exact H.
Defined.

(** Asking for the unregistered [numericlib] imports it and leaves the
    registry empty. *)
Lemma get_version_keeps_registry_witness :
  ("numericlib" ∉ names fresh) ∧
  ("numericlib" ∉
     names ((get_version knowledge builtin_getattr sample_loader
               (PyStr "numericlib") fresh).2)).
Proof.
  assert ("numericlib" ∉ names fresh) as H by apply not_elem_of_nil.
  split; [exact H |].
  by apply (get_version_keeps_registry knowledge builtin_getattr sample_loader
              (PyStr "numericlib") fresh).
Defined.



(** A construction in which [plotlib] resolves only because the stand-in
    for [backend] was cached before it, and in which the name [plotlib]
    comes again, by a handle. *)
Lemma names_after_construction_witness :
  supplied (PyList [PyStr "backend"; PyStr "plotlib"]) =
    Some [PyStr "backend"; PyStr "plotlib"] ∧
  supplied (PyTuple [PyStr "missing_component"; bare]) =
    Some [PyStr "missing_component"; bare] ∧
  supplied (PyList [plotlib_fork]) = Some [plotlib_fork] ∧
  Forall (λ x, valid_element x = true)
    ([PyStr "backend"; PyStr "plotlib"] ++
     [PyStr "missing_component"; bare] ++ [plotlib_fork]) ∧
  all_handled sample_loader (sys_modules fresh)
    ([PyStr "backend"; PyStr "plotlib"] ++
     [PyStr "missing_component"; bare] ++ [plotlib_fork]) ∧
  first_occurrences
    (resolved_names sample_loader (sys_modules fresh)
       ([PyStr "backend"; PyStr "plotlib"] ++
        [PyStr "missing_component"; bare] ++ [plotlib_fork])) = ["plotlib"; "bare"] ∧
  ∃ s',
    __init__ builtin_getattr sample_loader
      (PyList [PyStr "backend"; PyStr "plotlib"])
      (PyTuple [PyStr "missing_component"; bare]) (PyList [plotlib_fork]) 4 54 fresh
      = (Return tt, s') ∧
    names s' =
      first_occurrences
        (resolved_names sample_loader (sys_modules fresh)
           ([PyStr "backend"; PyStr "plotlib"] ++
            [PyStr "missing_component"; bare] ++ [plotlib_fork])).
Proof.
  assert (Forall (λ x, valid_element x = true)
            ([PyStr "backend"; PyStr "plotlib"] ++
             [PyStr "missing_component"; bare] ++ [plotlib_fork])) as Hv.
  { repeat constructor. }
  assert (all_handled sample_loader (sys_modules fresh)
            ([PyStr "backend"; PyStr "plotlib"] ++
             [PyStr "missing_component"; bare] ++ [plotlib_fork])) as Hh.
  { vm_compute. repeat split. }
  split_and!; [reflexivity | reflexivity | reflexivity | exact Hv | exact Hh
               | vm_compute; reflexivity |].
  apply (names_after_construction builtin_getattr sample_loader
           (PyList [PyStr "backend"; PyStr "plotlib"])
           (PyTuple [PyStr "missing_component"; bare]) (PyList [plotlib_fork])
           [PyStr "backend"; PyStr "plotlib"] [PyStr "missing_component"; bare]
           [plotlib_fork]
           4 54 fresh eq_refl eq_refl eq_refl Hv Hh).
Defined.

(** In that construction the handle that came last is the one stored
    under [plotlib], at the place where the name came first. *)
Example last_write_wins :
  _packages (self (__init__ builtin_getattr sample_loader
                     (PyList [PyStr "backend"; PyStr "plotlib"])
                     (PyTuple [PyStr "missing_component"; bare])
                     (PyList [plotlib_fork]) 4 54 fresh).2)
  = [("plotlib", plotlib_fork); ("bare", bare)].
Proof. vm_compute. reflexivity. Qed.

(** Adding [numericlib] twice to the empty registry. *)
Lemma add_twice_is_idempotent_witness :
  NoDup (names fresh) ∧
  resolves sample_loader fresh "numericlib" = true ∧
  ∃ s1 s2,
    add_packages builtin_getattr sample_loader (PyList [PyStr "numericlib"]) fresh =
      (Return tt, s1) ∧
    add_packages builtin_getattr sample_loader (PyList [PyStr "numericlib"]) s1 =
      (Return tt, s2) ∧
    entries s2 "numericlib" = 1 ∧
    _packages (self s2) = _packages (self s1) ∧
    (get_version knowledge builtin_getattr sample_loader (PyStr "numericlib") s2).1 =
    (get_version knowledge builtin_getattr sample_loader (PyStr "numericlib") s1).1.
Proof.
  assert (NoDup (names fresh)) as Hnd by apply NoDup_nil_2.
  split_and!; [exact Hnd | vm_compute; reflexivity |].
  apply (add_twice_is_idempotent knowledge builtin_getattr sample_loader
           "numericlib" fresh Hnd).
  vm_compute; reflexivity.
Defined.

(** The runtime string of the sample host in a registry thirty columns
    wide. *)
Lemma sys_version_is_wrapped_witness :
  greedy_wrap runtime (text_width (self narrow) - 4) =
    Return ["3.7.3 (default, Mar 27"; "2019, 22:11:17) [GCC"; "7.3.0]"] ∧
  Forall (fits (text_width (self narrow) - 4))
    ["3.7.3 (default, Mar 27"; "2019, 22:11:17) [GCC"; "7.3.0]"] ∧
  sys_version runtime greedy_wrap narrow =
    (Return (LF +:+ block ["3.7.3 (default, Mar 27"; "2019, 22:11:17) [GCC"; "7.3.0]"]),
     narrow) ∧
  Forall (fits (text_width (self narrow) - 2))
    (printed ["3.7.3 (default, Mar 27"; "2019, 22:11:17) [GCC"; "7.3.0]"]) ∧
  Forall (fits (text_width (self narrow)))
    (printed ["3.7.3 (default, Mar 27"; "2019, 22:11:17) [GCC"; "7.3.0]"]).
Proof.
  assert (Forall (fits (text_width (self narrow) - 4))
            ["3.7.3 (default, Mar 27"; "2019, 22:11:17) [GCC"; "7.3.0]"]) as Hfit.
  { repeat constructor; unfold fits; simpl; lia. }
  split; [vm_compute; reflexivity |]. split; [exact Hfit |].
  apply (sys_version_is_wrapped runtime greedy_wrap narrow); [| exact Hfit].
  vm_compute; reflexivity.
Defined.

(** C2: [vtk] is neither registered, nor loaded, nor installed on the
    sample host, and the override table lists it under [VTK_VERSION]:
    [get_version] does not raise, but what it returns is the child that
    the stand-in of the failed import hands out for that attribute, not
    the string "unknown", and the only warning logged is the one of the
    import. *)
Lemma get_version_absent_component_returns_stub :
  name_or_handle (PyStr "vtk") = true ∧
  ("vtk" ∉ names fresh) ∧
  import_fails sample_loader fresh "vtk" = true ∧
  get_version knowledge builtin_getattr sample_loader (PyStr "vtk") fresh =
    (Return (PyMock ["VTK_VERSION"]), mocked sample_loader "vtk" fresh) ∧
  warnings (mocked sample_loader "vtk" fresh) =
    ["Could not import module `vtk`. This will be mocked."].
Proof.
  split_and!; try (vm_compute; reflexivity).
  apply not_elem_of_nil.
Qed.

(** ** Further examples on the sample host *)

Example padding_of_seven_pairs : padding 4 7 = 1%nat ∧ padding (-4) 7 = 1%nat ∧ padding 4 8 = 0%nat.
Proof. vm_compute. done. Qed.

Example right_aligned :
  rjust 15 "2.1.0" = "          2.1.0" ∧ rjust 3 "2.1.0" = "2.1.0" ∧
  rjust 15 "1.0β" = "           1.0β".
Proof. vm_compute. done. Qed.

Example cells_of_four :
  cells_of knowledge builtin_getattr format_right (_packages (self four)) =
    Return [("          2.1.0", "numericlib"); ("            1.0", "floated");
            ("        unknown", "bare"); ("           1.0β", "greek")].
Proof. vm_compute. reflexivity. Qed.

Example one_tuple_is_unpacked :
  percent_s some_text (PyTuple [PyInt 7]) = Return "7" ∧
  percent_s some_text (PyTuple [PyInt 1; PyInt 2; PyInt 0]) =
    Raise (TypeError "not all arguments converted during string formatting").
Proof. vm_compute. done. Qed.

Lemma NoDup_names_five : NoDup (names five).
Proof. apply (bool_decide_unpack _). by vm_compute. Qed.

Lemma NoDup_names_four : NoDup (names four).
Proof. apply (bool_decide_unpack _). by vm_compute. Qed.

Lemma NoDup_names_with_tuple : NoDup (names with_tuple).
Proof. apply (bool_decide_unpack _). by vm_compute. Qed.

(** A function handed to [_add_package] without a name: it has a
    [__name__], so the refusal is the [TypeError]. *)
Lemma add_package_rejects_non_module_witness :
  isinstance_ModuleType helper = false ∧
  _add_package builtin_getattr helper PyNone fresh =
    (Raise (TypeError "Module passed is not a module."), fresh).
Proof.
  split; [reflexivity |].
  apply (add_package_rejects_non_module builtin_getattr helper PyNone fresh).
  reflexivity.
Defined.

(** The integer 42 handed to [_add_package] without a name: it has no
    [__name__] on the sample host. *)
Example add_package_without_name :
  _add_package builtin_getattr (PyInt 42) PyNone fresh =
    (Raise (AttributeError "__name__"), fresh).
Proof. vm_compute. reflexivity. Qed.

(** A list that adds [bare] and then fails on 42. *)
Lemma add_packages_only_grows_witness :
  add_packages builtin_getattr sample_loader (PyList [bare; PyInt 42]) loaded =
    (Raise (TypeError "Cannot add package from type (<class 'int'>)"),
     mkState (mkVersions 4 54 [("numericlib", numericlib); ("bare", bare)])
             {[ "numericlib" := numericlib ]} []) ∧
  names loaded `prefix_of` ["numericlib"; "bare"].
Proof.
  assert (add_packages builtin_getattr sample_loader (PyList [bare; PyInt 42]) loaded =
    (Raise (TypeError "Cannot add package from type (<class 'int'>)"),
     mkState (mkVersions 4 54 [("numericlib", numericlib); ("bare", bare)])
             {[ "numericlib" := numericlib ]} [])) as Hrun
    by (vm_compute; reflexivity).
  split; [exact Hrun |].
  apply (add_packages_only_grows builtin_getattr sample_loader _ _ _ _ Hrun).
Defined.

(** The cached [numericlib] survives a failed one-off import of [vtk]. *)
Lemma loaded_modules_stay_cached_witness :
  sys_modules loaded !! "numericlib" = Some numericlib ∧
  numericlib ≠ PyNone ∧
  sys_modules (get_version knowledge builtin_getattr sample_loader
                 (PyStr "vtk") loaded).2 !! "numericlib"
    = Some numericlib.
Proof.
  assert (sys_modules loaded !! "numericlib" = Some numericlib) as H
    by (vm_compute; reflexivity).
  assert (numericlib ≠ PyNone) as Hnn by done.
  split_and!; [exact H | exact Hnn |].
  apply (loaded_modules_stay_cached knowledge builtin_getattr sample_loader
           "numericlib" numericlib loaded H Hnn).
Defined.

(** [bare] is registered in [five]; nothing at all can be imported. *)
Lemma registered_name_needs_no_import_witness :
  dict_getitem (_packages (self five)) "bare" = Some bare ∧
  get_version knowledge builtin_getattr (site_loader ∅) (PyStr "bare") five =
    (Return (PyStr "unknown"),
     add_warning "Varsion attribute for `bare` is unknown." five).
Proof.
  assert (dict_getitem (_packages (self five)) "bare" = Some bare) as H
    by (vm_compute; reflexivity).
  split; [exact H |].
  apply (registered_name_needs_no_import knowledge builtin_getattr (site_loader ∅)
           "bare" bare five H).
Defined.

(** Asking the empty registry about [numericlib.linalg]: the submodule and
    its package are cached afterwards. *)
Lemma unregistered_query_imports_witness :
  ("numericlib.linalg" ∉ names fresh) ∧
  sys_modules fresh !! "numericlib.linalg" = None ∧
  import_module sample_loader "numericlib.linalg" fresh =
    (Return (PyModule "numericlib.linalg" ∅),
     set_sys_modules
       (<[ "numericlib.linalg" := PyModule "numericlib.linalg" ∅ ]>
          {[ "numericlib" := numericlib ]}) fresh) ∧
  sys_modules (get_version knowledge builtin_getattr sample_loader
                 (PyStr "numericlib.linalg") fresh).2 !! "numericlib.linalg"
    = Some (PyModule "numericlib.linalg" ∅).
Proof.
  assert ("numericlib.linalg" ∉ names fresh) as H1 by apply not_elem_of_nil.
  assert (sys_modules fresh !! "numericlib.linalg" = None) as H2
    by (vm_compute; reflexivity).
  assert (import_module sample_loader "numericlib.linalg" fresh =
    (Return (PyModule "numericlib.linalg" ∅),
     set_sys_modules
       (<[ "numericlib.linalg" := PyModule "numericlib.linalg" ∅ ]>
          {[ "numericlib" := numericlib ]}) fresh)) as H3
    by (vm_compute; reflexivity).
  split_and!; [exact H1 | exact H2 | exact H3 |].
  destruct (unregistered_query_imports knowledge builtin_getattr sample_loader
              "numericlib.linalg" _ fresh _ H1 H2 H3) as (_ & _ & Hm & _).
  exact Hm.
Defined.

(** The integer 42 for [additional], behind a [core] that names a
    package. *)
Lemma init_rejects_before_import_witness :
  supplied (PyInt 42) = None ∧
  ∃ msg,
    __init__ builtin_getattr sample_loader
      (PyList [PyStr "numericlib"]) PyNone (PyInt 42) 4 54 loaded =
      (Raise (TypeError msg),
       mkState (mkVersions 4 54 []) (sys_modules loaded) (warnings loaded)).
Proof.
  split; [reflexivity |].
  apply (init_rejects_before_import builtin_getattr sample_loader
           (PyList [PyStr "numericlib"]) PyNone (PyInt 42) 4 54 loaded).
  right. right. reflexivity.
Defined.

(** The construction of the end-to-end scenario. *)
Lemma init_leaves_sound_registry_witness :
  __init__ builtin_getattr sample_loader
    (PyList [PyStr "numericlib"]) (PyList []) (PyList []) 4 54 fresh
    = (Return tt, loaded) ∧
  no_stub (_packages (self loaded)) ∧ NoDup (names loaded) ∧
  ncol (self loaded) = 4%Z ∧ text_width (self loaded) = 54%Z.
Proof.
  assert (__init__ builtin_getattr sample_loader
            (PyList [PyStr "numericlib"]) (PyList []) (PyList [])
            4 54 fresh = (Return tt, loaded)) as Hrun by (vm_compute; reflexivity).
  split; [exact Hrun |].
  apply (init_leaves_sound_registry builtin_getattr sample_loader _ _ _ _ _ _ _ _ Hrun).
Defined.

(** The plain-text report of the registry [four], which shows a float and
    a version with a character of two bytes. *)
Lemma repr_reports_each_component_witness :
  NoDup (names four) ∧
  cells_of knowledge builtin_getattr format_right (_packages (self four)) =
    Return [("          2.1.0", "numericlib"); ("            1.0", "floated");
            ("        unknown", "bare"); ("           1.0β", "greek")] ∧
  greedy_wrap runtime (text_width (self four) - 4) =
    Return ["3.7.3 (default, Mar 27"; "2019, 22:11:17) [GCC"; "7.3.0]"] ∧
  mkl_text greedy_wrap None (text_width (self four)) = Return "" ∧
  ∃ text,
    __repr__ knowledge builtin_getattr sample_loader runtime greedy_wrap clock
      "Linux" (Some 8%Z) None four
      = (Returns text, add_warning "Varsion attribute for `bare` is unknown." four).
Proof.
  assert (cells_of knowledge builtin_getattr format_right (_packages (self four)) =
    Return [("          2.1.0", "numericlib"); ("            1.0", "floated");
            ("        unknown", "bare"); ("           1.0β", "greek")]) as Hcells
    by (vm_compute; reflexivity).
  assert (greedy_wrap runtime (text_width (self four) - 4) =
    Return ["3.7.3 (default, Mar 27"; "2019, 22:11:17) [GCC"; "7.3.0]"]) as Hwrap
    by (vm_compute; reflexivity).
  split_and!; [exact NoDup_names_four | exact Hcells | exact Hwrap | reflexivity |].
  destruct (repr_reports_each_component knowledge builtin_getattr sample_loader
              runtime greedy_wrap clock "Linux" (Some 8%Z) None four 8 _ _ ""
              NoDup_names_four eq_refl Hcells Hwrap eq_refl) as [Hrun _].
  eexists. exact Hrun.
Defined.

(** [tupled] shows a tuple for a version. *)
Lemma repr_refuses_unprintable_version_witness :
  NoDup (names with_tuple) ∧
  Exists (λ kv, printable (shown knowledge builtin_getattr kv) = false)
    (_packages (self with_tuple)) ∧
  ∃ msg s',
    __repr__ knowledge builtin_getattr sample_loader runtime greedy_wrap clock
      "Linux" (Some 8%Z) None with_tuple = (Raises (Python (TypeError msg)), s').
Proof.
  assert (Exists (λ kv, printable (shown knowledge builtin_getattr kv) = false)
            (_packages (self with_tuple))) as Hbad.
  { apply Exists_cons_tl, Exists_cons_hd. vm_compute. reflexivity. }
  split_and!; [exact NoDup_names_with_tuple | exact Hbad |].
  apply (repr_refuses_unprintable_version knowledge builtin_getattr sample_loader
           runtime greedy_wrap clock "Linux" (Some 8%Z) None with_tuple 8
           NoDup_names_with_tuple eq_refl Hbad).
Defined.

(** A host that cannot count its CPUs. *)
Lemma renderers_need_cpu_count_witness :
  __repr__ knowledge builtin_getattr sample_loader runtime greedy_wrap clock
    "Linux" None None five
    = (Raises NotImplementedError, five) ∧
  _repr_html_ knowledge builtin_getattr sample_loader runtime clock
    "Linux" None None some_text five
    = (Raises NotImplementedError, five).
Proof.
  apply (renderers_need_cpu_count knowledge builtin_getattr sample_loader runtime
           greedy_wrap clock "Linux" None None some_text five eq_refl).
Defined.

(** Five components in four columns: seven pairs, one empty pair to fill
    the second row. *)
Lemma html_fills_last_row_witness :
  NoDup (names five) ∧
  ncol (self five) ≠ 0%Z ∧
  cells_of knowledge builtin_getattr (percent_s some_text) (_packages (self five)) =
    Return [("2.1.0", "numericlib"); ("8.1.2", "vtk"); ("unknown", "bare");
            ("0.9", "alpha"); ("7", "tupled1")] ∧
  padding (ncol (self five)) (2 + Z.of_nat (length (names five))) = 1%nat ∧
  ((2 + Z.of_nat (length (names five)) +
    Z.of_nat (padding (ncol (self five)) (2 + Z.of_nat (length (names five)))))
   `mod` ncol (self five) = 0)%Z.
Proof.
  assert (ncol (self five) ≠ 0%Z) as Hn by done.
  assert (cells_of knowledge builtin_getattr (percent_s some_text)
            (_packages (self five)) =
    Return [("2.1.0", "numericlib"); ("8.1.2", "vtk"); ("unknown", "bare");
            ("0.9", "alpha"); ("7", "tupled1")]) as Hcells
    by (vm_compute; reflexivity).
  split_and!; [exact NoDup_names_five | exact Hn | exact Hcells
               | vm_compute; reflexivity |].
  apply (html_fills_last_row knowledge builtin_getattr sample_loader runtime clock
           "Linux" (Some 8%Z) None some_text five 8 _ NoDup_names_five Hn eq_refl
           Hcells).
Defined.

(** A registry built with [ncol=0]. *)
Lemma html_needs_columns_witness :
  ncol (self no_columns) = 0%Z ∧
  _repr_html_ knowledge builtin_getattr sample_loader runtime clock
    "Linux" (Some 8%Z) None some_text
    no_columns = (Raises ZeroDivisionError, no_columns).
Proof.
  split; [reflexivity |].
  apply (html_needs_columns knowledge builtin_getattr sample_loader runtime clock
           "Linux" (Some 8%Z) None some_text no_columns 8 eq_refl eq_refl).
Defined.

(** [tupled] shows a tuple of three for a version. *)
Lemma html_refuses_tuple_version_witness :
  NoDup (names with_tuple) ∧
  ncol (self with_tuple) ≠ 0%Z ∧
  Exists (λ kv, ∃ items, shown knowledge builtin_getattr kv = PyTuple items ∧
                         length items ≠ 1%nat)
    (_packages (self with_tuple)) ∧
  ∃ msg s',
    _repr_html_ knowledge builtin_getattr sample_loader runtime clock
      "Linux" (Some 8%Z) None some_text
      with_tuple = (Raises (Python (TypeError msg)), s').
Proof.
  assert (ncol (self with_tuple) ≠ 0%Z) as Hn by done.
  assert (Exists (λ kv, ∃ items, shown knowledge builtin_getattr kv = PyTuple items ∧
                                 length items ≠ 1%nat)
            (_packages (self with_tuple))) as Hbad.
  { apply Exists_cons_tl, Exists_cons_hd.
    exists [PyInt 1; PyInt 2; PyInt 0]. split; [vm_compute; reflexivity | done]. }
  split_and!; [exact NoDup_names_with_tuple | exact Hn | exact Hbad |].
  apply (html_refuses_tuple_version knowledge builtin_getattr sample_loader runtime
           clock "Linux" (Some 8%Z) None some_text with_tuple 8
           NoDup_names_with_tuple Hn eq_refl Hbad).
Defined.
